(** * OpenDepartureDisplay: the departure pipeline, embedded and verified

    A shallow embedding of [data_classes.py], [helper_functions.py], the
    refresh part of [gui.py] and the departure cycle of [main.py].

    Python exceptions are values of [exn]; a function that may raise returns
    a [pyresult].  Lists, dictionaries and strings are stdpp lists, [gmap]s and
    [string]s.  What the program obtains from outside the repository's
    sources (the transit client, the XML parser, the ISO-8601 parser, the
    colour table file, the wall clock) is gathered in a [World] record and
    passed explicitly. *)

From Stdlib Require Import ZArith Ascii String Permutation Sorted Lia SpecFloat.
From stdpp Require Import base option list sorting gmap strings pretty.

Set Warnings "-register-all,-clear-no-such-hyp".

Local Open Scope Z_scope.
Local Open Scope nat_scope.

(** ** Exceptions and fallible results *)

Inductive exn : Type :=
  | AttributeError      (* [None.text], [None.find], [None.split] *)
  | TypeError           (* [fromisoformat(None)] *)
  | ValueError          (* [fromisoformat] on a string that is no date *)
  | UnboundLocalError   (* a local read before any assignment *)
  | IndexError
  | KeyError (key : string)
  | OSError             (* [pd.read_csv] on a file it cannot read *)
  | ParseError          (* [ET.fromstring] on markup that is not XML *)
  | TclError            (* a Tk command on a destroyed widget *)
  | TransportError.     (* the transit client could not obtain a response *)

Inductive pyresult (A : Type) : Type :=
  | Ok (a : A)
  | Raise (e : exn).
Arguments Ok {A} a.
Arguments Raise {A} e.

#[global] Instance pyresult_ret : MRet pyresult := fun A a => Ok a.
#[global] Instance pyresult_bind : MBind pyresult := fun A B k r =>
  match r with
  | Ok a => k a
  | Raise e => Raise e
  end.

#[global] Instance pyresult_fmap : FMap pyresult := fun A B f r =>
  match r with
  | Ok a => Ok (f a)
  | Raise e => Raise e
  end.

(** [try: ... except Exception: default] *)
Definition try_except {A} (r : pyresult A) (default : A) : A :=
  match r with Ok a => a | Raise _ => default end.

(** [try: ... except AttributeError: default]; any other exception goes on. *)
Definition except_AttributeError {A} (r : pyresult A) (default : A) : pyresult A :=
  match r with
  | Raise AttributeError => Ok default
  | other => other
  end.

(** [o.attr] where [o] may be [None] *)
Definition attr_of {A B} (o : option A) (f : A -> B) : pyresult B :=
  match o with
  | Some a => Ok (f a)
  | None => Raise AttributeError
  end.

#[global] Instance exn_eq_dec : EqDecision exn.
Proof. solve_decision. Defined.

(** ** Python strings *)

Module Str.

(** [s.startswith(p)] *)
Fixpoint startswith (s p : string) {struct p} : bool :=
  match p with
  | EmptyString => true
  | String c p' =>
      match s with
      | EmptyString => false
      | String d s' => Ascii.eqb c d && startswith s' p'
      end
  end.

(** [s.split(sep)] with a one-character separator: never an empty list. *)
Fixpoint split (sep : ascii) (s : string) : list string :=
  match s with
  | EmptyString => [EmptyString]
  | String c s' =>
      if Ascii.eqb c sep then EmptyString :: split sep s'
      else match split sep s' with
           | w :: ws => String c w :: ws
           | [] => [String c EmptyString]
           end
  end.

(** [sep.join(parts)] *)
Fixpoint join (sep : string) (parts : list string) : string :=
  match parts with
  | [] => EmptyString
  | [w] => w
  | w :: ws => w +:+ sep +:+ join sep ws
  end.

(** Iterating a string yields its one-character strings. *)
Fixpoint chars (s : string) : list string :=
  match s with
  | EmptyString => []
  | String c s' => String c EmptyString :: chars s'
  end.

(** [s[n:]] *)
Fixpoint drop (n : nat) (s : string) : string :=
  match n, s with
  | O, _ => s
  | S n', String _ s' => drop n' s'
  | S _, EmptyString => EmptyString
  end.

(** [s[0:n]] *)
Fixpoint take (n : nat) (s : string) : string :=
  match n, s with
  | O, _ => EmptyString
  | S n', String c s' => String c (take n' s')
  | S _, EmptyString => EmptyString
  end.

(** ASCII lower-casing, the case folding of a case-insensitive match on
    the byte strings modelled here. *)
Definition lower_char (c : ascii) : ascii :=
  let n := nat_of_ascii c in
  if (65 <=? n)%nat && (n <=? 90)%nat then ascii_of_nat (n + 32) else c.

Fixpoint lower (s : string) : string :=
  match s with
  | EmptyString => EmptyString
  | String c s' => String (lower_char c) (lower s')
  end.

(** [needle in s] *)
Fixpoint contains (s needle : string) : bool :=
  startswith s needle ||
  match s with
  | EmptyString => false
  | String _ s' => contains s' needle
  end.

End Str.

(** ** data_classes.py *)

(** [datetime]: an instant, in microseconds since the epoch.  The times of
    a response carry their offset, so the instants are timezone-aware and
    any two of them compare. *)
Definition datetime : Type := Z.

Record StopPoint : Type := mkStopPoint {
  stop_point_ref : string;
  prefix : option string;
  suffix : option string
}.

(** [lead_time_minutes] is a float that is stored and compared, never
    computed with. *)
Record Station : Type := mkStation {
  name : string;
  lead_time_minutes : spec_float;
  stop_points : list StopPoint
}.

(** [destination] and [mode] are the [.text] of an XML element, which is
    [None] for an element without text; [platform] is [None] when the
    response has no bay. *)
Record Departure : Type := mkDeparture {
  line_number : string;
  destination : option string;
  platform : option string;
  station : Station;
  stop_point : StopPoint;
  mode : option string;
  background_color : string;
  text_color : string;
  planned_time : datetime;
  estimated_time : option datetime
}.

(** [sp.stop_point_ref], for where a parameter of that name hides the field. *)
Abbreviation ref_of := stop_point_ref (only parsing).

(** The generated [__eq__] of a dataclass compares all fields. *)
#[global] Instance StopPoint_eq_dec : EqDecision StopPoint.
Proof. solve_decision. Defined.

#[global] Instance spec_float_eq_dec : EqDecision spec_float.
Proof. solve_decision. Defined.

#[global] Instance Station_eq_dec : EqDecision Station.
Proof. solve_decision. Defined.

#[global] Instance Departure_eq_dec : EqDecision Departure.
Proof. solve_decision. Defined.

(** ** The colour table ([line-colors.csv] as [pd.read_csv] returns it) *)

(** A row of the table; [shortOperatorName] is [None] where the cell is
    empty (NaN in the data frame). *)
Record ColorRow : Type := mkColorRow {
  shortOperatorName : option string;
  lineName : string;
  backgroundColor : string;
  textColor : string
}.

(** ** xml.etree.ElementTree *)

Inductive Element : Type :=
  mkElement (tag : string) (text : option string) (children : list Element).

Definition tag (e : Element) : string :=
  match e with mkElement t _ _ => t end.
Definition text (e : Element) : option string :=
  match e with mkElement _ t _ => t end.
Definition children (e : Element) : list Element :=
  match e with mkElement _ _ cs => cs end.

Module ET.

(** The namespace map [ns] of the decoder: [tri:X] is the tag [{uri}X]. *)
Definition tri (local : string) : string :=
  "{http://www.vdv.de/trias}" +:+ local.

(** All elements below [e], in document order, [e] itself excluded. *)
Fixpoint iter_below (e : Element) : list Element :=
  match e with
  | mkElement _ _ cs =>
      (fix go (l : list Element) : list Element :=
         match l with
         | [] => []
         | c :: l' => c :: iter_below c ++ go l'
         end) cs
  end.

(** Path step [.//t] *)
Definition descendants_tagged (t : string) (e : Element) : list Element :=
  filter (fun d => tag d = t) (iter_below e).

(** Path step [t] *)
Definition children_tagged (t : string) (e : Element) : list Element :=
  filter (fun c => tag c = t) (children e).

(** [e.findall('.//tri:a')] *)
Definition findall_desc (a : string) (e : Element) : list Element :=
  descendants_tagged (tri a) e.

(** [e.find('.//tri:a')] *)
Definition find_desc (a : string) (e : Element) : option Element :=
  head (descendants_tagged (tri a) e).

(** [e.find('tri:a')] *)
Definition find_child (a : string) (e : Element) : option Element :=
  head (children_tagged (tri a) e).

(** [e.find('.//tri:a/tri:b')] *)
Definition find_desc_child (a b : string) (e : Element) : option Element :=
  head (descendants_tagged (tri a) e ≫= children_tagged (tri b)).

End ET.

(** ** What the program takes from outside its sources *)

(** The rendered line icon that [LineIcons.get_icon] returns
    ([gui_line_icons.py] is not part of the sources), by what the caller
    asks for; pixel geometry is left out. *)
Record LineIcon : Type := mkLineIcon {
  icon_mode : option string;
  icon_text : string;
  icon_background_color : string;
  icon_text_color : string
}.

Record World : Type := mkWorld {
  (** [KVV.get(stop_point_ref, number_of_results)].  [KVV.py] is not among
      the sources; by the specification the client gives the raw XML
      document or fails with a transport error, which reaches a Python
      caller as an exception. *)
  kvv_get : string -> nat -> pyresult string;
  (** [ET.fromstring]: the root element, or [ParseError]. *)
  ET_fromstring : string -> pyresult Element;
  (** [datetime.fromisoformat] on a string: the instant, or [ValueError]. *)
  fromisoformat : string -> pyresult datetime;
  (** [pd.read_csv(filename)]: the rows, or the exception of the read. *)
  read_csv : string -> pyresult (list ColorRow);
  (** [datetime.now().replace(tzinfo=ZoneInfo(time_zone))] *)
  now : string -> datetime
}.

(** ** helper_functions.py *)

(** [df['shortOperatorName'].str.contains('kvv', case=False, na=False)] *)
Definition operator_is_kvv (row : ColorRow) : bool :=
  match shortOperatorName row with
  | Some op => Str.contains (Str.lower op) "kvv"
  | None => false
  end.

Definition get_line_color (W : World) (line_name filename : string)
    (fallback_colors : string * string)
    (SEV_lines_use_normal_line_icon_colors : bool) : pyresult (string * string) :=
  if Str.startswith line_name "ICE" || Str.startswith line_name "IC" then
    Ok ("#EC0016", "#FFFFFF")
  else if Str.startswith line_name "FLX" then
    Ok ("#97d700", "#FFFFFF")
  else
    df ← read_csv W filename;
    let filtered_df := filter (fun row => operator_is_kvv row = true) df in
    let result := filter (fun row => lineName row = line_name) filtered_df in
    let found : pyresult (list ColorRow) :=
      match result with
      | [] =>
          if SEV_lines_use_normal_line_icon_colors
             && bool_decide (Str.take 3 line_name = "SEV")
          then
            match filter (fun row => lineName row = Str.drop 3 line_name)
                         filtered_df with
            | [] => Raise IndexError
            | result => Ok result
            end
          else Raise IndexError
      | _ => Ok result
      end in
    match found with
    | Ok (row :: _) => Ok (backgroundColor row, textColor row)
    | Ok [] => Ok fallback_colors
    | Raise IndexError => Ok fallback_colors
    | Raise e => Raise e
    end.

Definition format_platform (platform : string) : string :=
  let words := Str.split " " platform in
  if bool_decide (1 < length words) then Str.join " " (drop 1 words)
  else platform.

(** *** get_departures_from_xml *)

(** [o.text] for the result [o] of a [find] *)
Definition text_of (o : option Element) : pyresult (option string) :=
  attr_of o text.

(** [event.find(path)] for an [event] that may itself be [None] *)
Definition find_in (event : option Element)
    (path : Element -> option Element) : pyresult (option Element) :=
  attr_of event path.

(** [datetime.fromisoformat(t)] where [t] may be [None] *)
Definition fromisoformat_text (W : World) (t : option string) : pyresult datetime :=
  match t with
  | Some s => fromisoformat W s
  | None => Raise TypeError
  end.

(** [words[-1]], read only where [words] is known to be non-empty. *)
Definition last_word (words : list string) : string :=
  default EmptyString (last words).

(** Lines 214-225: the assignments to the local [line_number], which is
    [None] while unbound.  The second [if] is no [elif]: it runs whatever
    the first one did. *)
Definition assign_line_number (words : list string)
    (line_number : option string) : option string :=
  let line_number :=
    if bool_decide (1 < length words) && bool_decide (words !! 1 = Some "SEV")
    then Some ("SEV" +:+ Str.join "" (Str.chars (last_word words)))
    else line_number in
  if bool_decide (0 < length words) then
    if bool_decide (last_word words = "InterCityExpress") then
      Some ("ICE" +:+ Str.join "" (take 1 (drop 1 words)))
    else if bool_decide (last_word words = "InterCity") then
      Some ("IC" +:+ Str.join "" (take 1 (drop 1 words)))
    else if bool_decide (last_word words = "Flixbus") then
      Some ("FLX" +:+ Str.join "" (Str.chars (last_word words)))
    else
      Some (last_word words)
  else line_number.

(** The locals of [get_departures_from_xml] that one iteration of its loop
    may leave to the next; [None] is an unbound name. *)
Record Locals : Type := mkLocals {
  local_line_number : option string;
  local_departure_station : option Station;
  local_departure_stop_point : option StopPoint
}.

Definition unbound : Locals := mkLocals None None None.

(** Reading a local. *)
Definition read_local {A} (v : option A) : pyresult A :=
  match v with
  | Some a => Ok a
  | None => Raise UnboundLocalError
  end.

(** Lines 236-240: scan every station and stop point; each match assigns
    both names, so the last match stays. *)
Definition scan_stop_points (stop_point_ref : string) (all_stations : list Station)
    (bound : option Station * option StopPoint)
    : option Station * option StopPoint :=
  foldl (fun bound station =>
           foldl (fun bound stop_point =>
                    if bool_decide (ref_of stop_point = stop_point_ref)
                    then (Some station, Some stop_point)
                    else bound)
                 bound (stop_points station))
        bound all_stations.

(** Line 201: does the record's stop point start with the requested one? *)
Definition is_requested (stop_point_ref : string) (event_result : Element)
    : pyresult bool :=
  ref_text ← text_of (ET.find_desc "StopPointRef" event_result);
  attr_of ref_text (fun t => Str.startswith t stop_point_ref).

(** [event.find('.//tri:a/tri:b', ns).text] *)
Definition text_at (event : option Element) (a b : string)
    : pyresult (option string) :=
  find_in event (ET.find_desc_child a b) ≫= text_of.

(** Line 205 *)
Definition planned_time_of (W : World) (event : option Element)
    : pyresult datetime :=
  text_at event "ServiceDeparture" "TimetabledTime" ≫= fromisoformat_text W.

(** Lines 206-209 *)
Definition estimated_time_of (W : World) (event : option Element)
    : option datetime :=
  try_except
    (Some <$> (text_at event "ServiceDeparture" "EstimatedTime"
                 ≫= fromisoformat_text W))
    None.

(** Lines 212 and 214 *)
Definition words_of (event : option Element) : pyresult (list string) :=
  published_line_name ← text_at event "PublishedLineName" "Text";
  attr_of published_line_name (Str.split " ").

(** Lines 230-233 *)
Definition platform_of (event : option Element) : pyresult (option string) :=
  except_AttributeError
    (raw ← text_at event "PlannedBay" "Text";
     Some <$> attr_of raw format_platform)
    None.

(** The body of the loop over the stop-event results (lines 201-263), for
    one [event_result]: the locals it leaves and the departure it appends,
    if any. *)
Definition decode_event_result (W : World) (stop_point_ref : string)
    (all_stations : list Station) (fallback_line_icon_colors : string * string)
    (SEV_lines_use_normal_line_icon_colors : bool)
    (locals : Locals) (event_result : Element)
    : pyresult (Locals * option Departure) :=
  requested ← is_requested stop_point_ref event_result;
  if negb requested then Ok (locals, @None Departure) else
  let event := ET.find_child "StopEvent" event_result in
  planned_time ← planned_time_of W event;
  let estimated_time := estimated_time_of W event in
  words ← words_of event;
  let line_number := assign_line_number words (local_line_number locals) in
  destination ← text_at event "DestinationText" "Text";
  platform ← platform_of event;
  let bound :=
    scan_stop_points stop_point_ref all_stations
      (local_departure_station locals, local_departure_stop_point locals) in
  let locals := mkLocals line_number (fst bound) (snd bound) in
  mode ← text_at event "Mode" "PtMode";
  line_number ← read_local line_number;
  colors ←
    get_line_color W line_number "line-colors.csv"
      fallback_line_icon_colors SEV_lines_use_normal_line_icon_colors;
  departure_station ← read_local (fst bound);
  departure_stop_point ← read_local (snd bound);
  Ok (locals,
      Some (mkDeparture line_number destination platform
              departure_station departure_stop_point mode
              (fst colors) (snd colors) planned_time estimated_time)).

(** The loop: the first exception ends the call, and with it the list
    built so far. *)
Fixpoint decode_event_results (W : World) (stop_point_ref : string)
    (all_stations : list Station) (fallback_line_icon_colors : string * string)
    (SEV_lines_use_normal_line_icon_colors : bool)
    (locals : Locals) (departures : list Departure)
    (event_results : list Element) : pyresult (list Departure) :=
  match event_results with
  | [] => Ok departures
  | event_result :: rest =>
      step ←
        decode_event_result W stop_point_ref all_stations
          fallback_line_icon_colors SEV_lines_use_normal_line_icon_colors
          locals event_result;
      decode_event_results W stop_point_ref all_stations
        fallback_line_icon_colors SEV_lines_use_normal_line_icon_colors
        (fst step) (departures ++ option_list (snd step)) rest
  end.

Definition get_departures_from_xml (W : World) (stop_point_ref : string)
    (tree_root : Element) (all_stations : list Station)
    (fallback_line_icon_colors : string * string)
    (SEV_lines_use_normal_line_icon_colors : bool) : pyresult (list Departure) :=
  decode_event_results W stop_point_ref all_stations
    fallback_line_icon_colors SEV_lines_use_normal_line_icon_colors
    unbound [] (ET.findall_desc "StopEventResult" tree_root).

(** *** What the decoder's results are measured against *)

(** A station of the supplied list, one of its stop points, and the
    requested reference on that stop point. *)
Definition consistent (stop_point_ref : string) (all_stations : list Station)
    (s : Station) (p : StopPoint) : Prop :=
  s ∈ all_stations /\ p ∈ stop_points s /\ ref_of p = stop_point_ref.

(** The two locals of the stop-point scan, where both are bound. *)
Definition bound_consistent (stop_point_ref : string)
    (all_stations : list Station)
    (bound : option Station * option StopPoint) : Prop :=
  forall s p, bound.1 = Some s -> bound.2 = Some p ->
    consistent stop_point_ref all_stations s p.



(** ** list.sort(key=...) *)

(** Python's sort is stable and ascending in the key; it is modelled by the
    stable insertion sort, and [stable_sort_unique] below shows that no
    stable sort can return anything else. *)
Fixpoint insert_by {A} (key : A -> Z) (x : A) (l : list A) : list A :=
  match l with
  | [] => [x]
  | y :: l' =>
      if (key x <=? key y)%Z then x :: y :: l' else y :: insert_by key x l'
  end.

Definition sort_by {A} (key : A -> Z) (l : list A) : list A :=
  foldr (insert_by key) [] l.

(** Ascending in the key. *)
Definition key_le {A} (key : A -> Z) (a b : A) : Prop := (key a <= key b)%Z.

(** ** gui.py *)

(** [config.colors] is the dictionary of the configuration file;
    [config.general] is read at two keys. *)
Record Config : Type := mkConfig {
  colors : gmap string string;
  general_time_zone : string;
  general_SEV_lines_use_normal_line_icon_colors : bool
}.

(** [d[key]] *)
Definition getitem (d : gmap string string) (key : string) : pyresult string :=
  match d !! key with
  | Some v => Ok v
  | None => Raise (KeyError key)
  end.

(** The Tk label of a line icon: its image and background, or destroyed. *)
Inductive IconLabel : Type :=
  | Label (image : option LineIcon) (background : string)
  | Destroyed.

(** A departure entry, by the state of its widgets: the three text
    variables (as last set), the background of the frame and of the three
    text labels, and the icon label. *)
Record DepartureEntry : Type := mkDepartureEntry {
  destination_var : option string;
  platform_var : string;
  time_text_var : string;
  frame_background : string;
  labels_background : string;
  line_icon_label : IconLabel
}.

(** [window.departure_entries] holds the column header first; the header's
    constructor sets none of the attributes of an entry. *)
Inductive Slot : Type :=
  | Header
  | Entry (e : DepartureEntry).

Module Window.
Record t : Type := mk {
  station : Station;
  number_of_departure_entries : nat;
  departure_entries : list Slot;
  config : Config
}.
End Window.

(** [DepartureEntry.__init__] *)
Definition new_entry (background : string) : DepartureEntry :=
  mkDepartureEntry (Some EmptyString) EmptyString EmptyString
    background background (Label None background).

(** The sort key of [Window.refresh] *)
Definition sort_key (x : Departure) : datetime :=
  match estimated_time x with
  | Some t => t
  | None => planned_time x
  end.

(** The time text of lines 230-235, from the difference in microseconds;
    the float of [total_seconds()] is replaced by the exact quotient. *)
Definition time_str (microseconds : Z) : string :=
  if (microseconds <? 60 * 1000000)%Z then "Jetzt"
  else if (microseconds <? 3600 * 1000000)%Z then
    pretty (microseconds / (60 * 1000000))%Z +:+ " min"
  else
    pretty (microseconds / (3600 * 1000000))%Z +:+ " h " +:+
    pretty ((microseconds mod (3600 * 1000000)) / (60 * 1000000))%Z +:+ " min".

(** [line_icon_label.configure(image=..., background=...)] *)
Definition configure_icon (l : IconLabel) (image : LineIcon)
    (background : string) : pyresult IconLabel :=
  match l with
  | Label _ _ => Ok (Label (Some image) background)
  | Destroyed => Raise TclError
  end.

(** [DepartureEntry.update]: the entry as the call leaves it, and how the
    call ends. *)
Definition update (W : World) (cfg : Config) (self : DepartureEntry)
    (departure : Departure) (index : nat) : DepartureEntry * pyresult unit :=
  match getitem (colors cfg)
          (if bool_decide (index mod 2 ≠ 0) then "departure_entry_darker"
           else "departure_entry_lighter") with
  | Raise e => (self, Raise e)
  | Ok background =>
      let self :=
        mkDepartureEntry (destination_var self) (platform_var self)
          (time_text_var self) background background (line_icon_label self) in
      let time_shown := sort_key departure in
      let time_str := time_str (time_shown - now W (general_time_zone cfg))%Z in
      let text := line_number departure in
      let text := if bool_decide (text = "InterCityExpress") then "ICE" else text in
      let text := if bool_decide (text = "InterCity") then "IC" else text in
      let icon :=
        mkLineIcon (mode departure) text
          (background_color departure) (text_color departure) in
      match configure_icon (line_icon_label self) icon background with
      | Raise e => (self, Raise e)
      | Ok label =>
          let platform_text := default "N/A" (platform departure) in
          (mkDepartureEntry (destination departure) platform_text time_str
             background background label, Ok ())
      end
  end.

(** [DepartureEntry.clear] *)
Definition clear (cfg : Config) (self : DepartureEntry) (index : nat)
    : DepartureEntry * pyresult unit :=
  let self :=
    mkDepartureEntry (Some EmptyString) EmptyString EmptyString
      (frame_background self) (labels_background self) Destroyed in
  match getitem (colors cfg)
          (if bool_decide (index mod 2 ≠ 0) then "DepartureEntry_darker"
           else "DepartureEntry_lighter") with
  | Raise e => (self, Raise e)
  | Ok background =>
      (mkDepartureEntry (destination_var self) (platform_var self)
         (time_text_var self) background (labels_background self)
         (line_icon_label self), Ok ())
  end.

(** A method of an entry, called on a slot. *)
Definition on_slot (method : DepartureEntry -> DepartureEntry * pyresult unit)
    (s : Slot) : Slot * pyresult unit :=
  match s with
  | Entry e => (Entry (method e).1, (method e).2)
  | Header => (Header, Raise AttributeError)
  end.

(** The first loop of [Window.refresh] (lines 149-153), from index [i] on:
    the entries as the loop leaves them, and the loop variable [i] as the
    code after the loop finds it ([None] while unbound). *)
Fixpoint update_loop (W : World) (cfg : Config)
    (number_of_departure_entries : nat) (rest : list Departure) (i : nat)
    (last_i : option nat) (departure_entries : list Slot)
    : list Slot * pyresult (option nat) :=
  match rest with
  | [] => (departure_entries, Ok last_i)
  | departure :: rest =>
      match departure_entries !! (i + 1) with
      | None => (departure_entries, Raise IndexError)
      | Some slot =>
          let updated := on_slot (fun e => update W cfg e departure i) slot in
          let departure_entries := <[i + 1 := updated.1]> departure_entries in
          match updated.2 with
          | Raise e => (departure_entries, Raise e)
          | Ok _ =>
              if bool_decide (number_of_departure_entries ≤ i + 1)
              then (departure_entries, Ok (Some i))
              else update_loop W cfg number_of_departure_entries rest (S i)
                     (Some i) departure_entries
          end
      end
  end.

(** The second loop (lines 156-157) over the slots of a slice. *)
Fixpoint clear_loop (cfg : Config) (i : nat) (slots : list Slot)
    : list Slot * pyresult unit :=
  match slots with
  | [] => ([], Ok ())
  | slot :: rest =>
      let cleared := on_slot (fun e => clear cfg e i) slot in
      match cleared.2 with
      | Raise e => (cleared.1 :: rest, Raise e)
      | Ok _ =>
          let later := clear_loop cfg i rest in
          (cleared.1 :: later.1, later.2)
      end
  end.

(** What a call of [Window.refresh] leaves: the window, the caller's list
    (sorted in place) and how the call ends. *)
Record Refreshed : Type := mkRefreshed {
  refreshed_window : Window.t;
  refreshed_departures : list Departure;
  refreshed_outcome : pyresult unit
}.

Definition with_entries (self : Window.t) (entries : list Slot) : Window.t :=
  Window.mk (Window.station self) (Window.number_of_departure_entries self)
    entries (Window.config self).

(** [Window.refresh] *)
Definition refresh (W : World) (self : Window.t) (departures : list Departure)
    : Refreshed :=
  let departures := sort_by sort_key departures in
  if bool_decide (length departures < 1) then
    mkRefreshed self departures (Ok ())
  else
    let looped :=
      update_loop W (Window.config self)
        (Window.number_of_departure_entries self) departures 0 None
        (Window.departure_entries self) in
    match looped.2 ≫= read_local with
    | Raise e => mkRefreshed (with_entries self looped.1) departures (Raise e)
    | Ok i =>
        let cleared :=
          clear_loop (Window.config self) i (drop (i + 2) looped.1) in
        mkRefreshed
          (with_entries self (take (i + 2) looped.1 ++ cleared.1))
          departures cleared.2
    end.

(** [Window.__init__], as far as the entries go: the header and
    [number_of_departure_entries] blank entries. *)
Definition new_window (cfg : Config) (station : Station)
    (number_of_departure_entries : nat) (background : string) : Window.t :=
  Window.mk station number_of_departure_entries
    (Header :: replicate number_of_departure_entries (Entry (new_entry background)))
    cfg.

(** ** helper_functions.py, the functions over windows *)

Definition get_all_used_stoppoints (windows : list Window.t) : list StopPoint :=
  foldl (fun all_stop_points window =>
           foldl (fun all_stop_points stop_point =>
                    if bool_decide (stop_point ∉ all_stop_points)
                    then all_stop_points ++ [stop_point]
                    else all_stop_points)
                 all_stop_points (stop_points (Window.station window)))
        [] windows.

Definition get_departures_for_window (window : Window.t)
    (all_departures : list Departure) : list Departure :=
  foldl (fun window_departures departure =>
           if bool_decide (station departure = Window.station window)
           then window_departures ++ [departure]
           else window_departures)
        [] all_departures.

(** The list of the first occurrences of the values of [l], in the order
    in which they are first seen; this definition follows the words of the
    specification, for comparison with [get_all_used_stoppoints]. *)
Fixpoint first_occurrences {A} `{EqDecision A} (l : list A) : list A :=
  match l with
  | [] => []
  | x :: l => x :: filter (fun y => y ≠ x) (first_occurrences l)
  end.

(** Every stop point of every window's station, window after window. *)
Definition used_stop_points (windows : list Window.t) : list StopPoint :=
  windows ≫= (fun window => stop_points (Window.station window)).

(** *** What [refresh] is measured against *)

(** The icon label of the entry has not been destroyed. *)
Definition alive (e : DepartureEntry) : Prop := line_icon_label e ≠ Destroyed.

(** The two colours [update] asks for, and the two [clear] asks for. *)
Definition has_update_colours (cfg : Config) : Prop :=
  is_Some (colors cfg !! "departure_entry_darker") /\
  is_Some (colors cfg !! "departure_entry_lighter").

Definition has_clear_colours (cfg : Config) : Prop :=
  is_Some (colors cfg !! "DepartureEntry_darker") /\
  is_Some (colors cfg !! "DepartureEntry_lighter").

(** The entries [es], the first of them updated with the departures [ds],
    one each, counting from index [i]. *)
Fixpoint updated (W : World) (cfg : Config) (i : nat)
    (es : list DepartureEntry) (ds : list Departure) : list DepartureEntry :=
  match es, ds with
  | e :: es, d :: ds => (update W cfg e d i).1 :: updated W cfg (S i) es ds
  | _, _ => es
  end.

(** The entries [es], each cleared with index [i]. *)
Definition cleared (cfg : Config) (i : nat) (es : list DepartureEntry)
    : list DepartureEntry :=
  (fun e => (clear cfg e i).1) <$> es.

(** The line shown in each slot after the header: the text of the icon,
    or [None] for a slot without icon. *)
Definition line_shown (s : Slot) : option string :=
  match s with
  | Entry e =>
      match line_icon_label e with
      | Label (Some icon) _ => Some (icon_text icon)
      | _ => None
      end
  | Header => None
  end.

Definition lines_shown (w : Window.t) : list (option string) :=
  line_shown <$> drop 1 (Window.departure_entries w).

(** ** main.py *)

(** What a cycle does that can be seen from outside, in order. *)
Inductive Trace : Type :=
  | Requested (stop_point_ref : string)      (* [kvv.get] was called *)
  | Logged (message : string) (e : exn)      (* [logger.exception] *)
  | Refreshed_window (index : nat)           (* [window.refresh] returned *)
  | Rearmed (milliseconds : Z).              (* [root.after] *)

#[global] Instance Trace_eq_dec : EqDecision Trace.
Proof. solve_decision. Defined.

(** The module-level state a cycle works on. *)
Record Program : Type := mkProgram {
  prog_config : Config;
  stations : list Station;
  windows : list Window.t;
  all_stop_points : list StopPoint
}.

(** The body of the [try] of the first loop, for one response. *)
Definition departures_of_response (W : World) (P : Program)
    (stop_point : StopPoint) (response : string) : pyresult (list Departure) :=
  tree_root ← ET_fromstring W response;
  background ← getitem (colors (prog_config P)) "default_icon_background";
  text ← getitem (colors (prog_config P)) "default_icon_text";
  get_departures_from_xml W (stop_point_ref stop_point) tree_root (stations P)
    (background, text)
    (general_SEV_lines_use_normal_line_icon_colors (prog_config P)).

(** The first loop of [update_departure_entries] (lines 71-79).  The call of
    [kvv.get] stands before the [try]: what it raises leaves the loop. *)
Fixpoint fetch_loop (W : World) (P : Program) (stop_points : list StopPoint)
    (all_departures : list Departure) (trace : list Trace)
    : list Trace * pyresult (list Departure) :=
  match stop_points with
  | [] => (trace, Ok all_departures)
  | stop_point :: rest =>
      let trace := trace ++ [Requested (stop_point_ref stop_point)] in
      match kvv_get W (stop_point_ref stop_point) 10 with
      | Raise e => (trace, Raise e)
      | Ok response =>
          match departures_of_response W P stop_point response with
          | Ok departures =>
              fetch_loop W P rest (all_departures ++ departures) trace
          | Raise e =>
              fetch_loop W P rest all_departures
                (trace ++ [Logged "error in creating departures from xml tree" e])
          end
      end
  end.

(** The second loop (lines 82-84): filter for each window and refresh it. *)
Fixpoint window_loop (W : World) (all_departures : list Departure)
    (index : nat) (todo : list Window.t) (trace : list Trace)
    : list Window.t * list Trace * pyresult unit :=
  match todo with
  | [] => ([], trace, Ok ())
  | window :: rest =>
      let window_departures := get_departures_for_window window all_departures in
      let r := refresh W window window_departures in
      match refreshed_outcome r with
      | Raise e => (refreshed_window r :: rest, trace, Raise e)
      | Ok _ =>
          let later :=
            window_loop W all_departures (S index) rest
              (trace ++ [Refreshed_window index]) in
          (refreshed_window r :: later.1.1, later.1.2, later.2)
      end
  end.

(** What one call of [update_departure_entries] leaves. *)
Record Cycle : Type := mkCycle {
  cycle_windows : list Window.t;
  cycle_trace : list Trace;
  cycle_outcome : pyresult unit
}.

Definition update_departure_entries (W : World) (P : Program) : Cycle :=
  let fetched := fetch_loop W P (all_stop_points P) [] [] in
  match fetched.2 with
  | Raise e => mkCycle (windows P) fetched.1 (Raise e)
  | Ok all_departures =>
      let shown := window_loop W all_departures 0 (windows P) fetched.1 in
      match shown.2 with
      | Raise e => mkCycle shown.1.1 shown.1.2 (Raise e)
      | Ok _ => mkCycle shown.1.1 (shown.1.2 ++ [Rearmed 30000%Z]) (Ok ())
      end
  end.

(** Does the cycle call itself again? *)
Definition rearmed (c : Cycle) : bool :=
  bool_decide (Rearmed 30000%Z ∈ cycle_trace c).

(** * The rest of the sources *)

#[global] Instance pyresult_eq_dec {A} `{EqDecision A} : EqDecision (pyresult A).
Proof. solve_decision. Defined.

(** ** helper_functions.py: create_stations *)

(** The dictionary of one station in the configuration, by the two keys
    that are read; [None] is a missing key.  [V] is the type of the value
    found under "lead_time_minutes", which [float] converts. *)
Record StationConfig (V : Type) : Type := mkStationConfig {
  config_lead_time_minutes : option V;
  config_stops : option (list (gmap string string))
}.
Arguments mkStationConfig {V} _ _.
Arguments config_lead_time_minutes {V} _.
Arguments config_stops {V} _.

(** [d[key]] for a key of any dictionary. *)
Definition getitem_of {A} (d : option A) (key : string) : pyresult A :=
  match d with
  | Some v => Ok v
  | None => Raise (KeyError key)
  end.

(** Lines 33-53: one stop point.  The two [try] blocks leave [None] where
    the key is missing. *)
Definition create_stop_point (stop_point : gmap string string) : pyresult StopPoint :=
  stop_point_ref ← getitem stop_point "stop_point_ref";
  Ok (mkStopPoint stop_point_ref (stop_point !! "prefix") (stop_point !! "suffix")).

(** The inner loop (lines 32-57). *)
Fixpoint create_stop_points (stops : list (gmap string string))
    (stop_points : list StopPoint) : pyresult (list StopPoint) :=
  match stops with
  | [] => Ok stop_points
  | stop_point :: rest =>
      created ← create_stop_point stop_point;
      create_stop_points rest (stop_points ++ [created])
  end.

(** The body of the outer loop, for one entry of the dictionary. *)
Definition create_station {V} (float : V -> pyresult spec_float)
    (station_name : string) (entry : StationConfig V) : pyresult Station :=
  stops ← getitem_of (config_stops entry) "stops";
  stop_points ← create_stop_points stops [];
  raw ← getitem_of (config_lead_time_minutes entry) "lead_time_minutes";
  lead_time_minutes ← float raw;
  Ok (mkStation station_name lead_time_minutes stop_points).

(** The outer loop; the dictionary is the list of its items in insertion
    order, each key once. *)
Fixpoint create_stations_loop {V} (float : V -> pyresult spec_float)
    (stations_config : list (string * StationConfig V))
    (stations : list Station) : pyresult (list Station) :=
  match stations_config with
  | [] => Ok stations
  | (station_name, entry) :: rest =>
      created ← create_station float station_name entry;
      create_stations_loop float rest (stations ++ [created])
  end.

Definition create_stations {V} (float : V -> pyresult spec_float)
    (stations_config : list (string * StationConfig V)) : pyresult (list Station) :=
  create_stations_loop float stations_config [].

(** What a station made from an entry looks like: the stop points follow
    the configured stops one by one. *)
Definition stop_point_from (stop_point : gmap string string) (sp : StopPoint) : Prop :=
  stop_point !! "stop_point_ref" = Some (stop_point_ref sp) /\
  prefix sp = stop_point !! "prefix" /\
  suffix sp = stop_point !! "suffix".

Definition station_from {V} (float : V -> pyresult spec_float)
    (item : string * StationConfig V) (s : Station) : Prop :=
  name s = item.1 /\
  (exists raw, config_lead_time_minutes item.2 = Some raw /\
               float raw = Ok (lead_time_minutes s)) /\
  (exists stops, config_stops item.2 = Some stops /\
                 Forall2 stop_point_from stops (stop_points s)).

(** ** helper_functions.py: download_line_color_list *)

(** What [urlretrieve] does: it saves the file, raises [HTTPError], or
    raises something else ([URLError] when the host cannot be reached). *)
Inductive Retrieval : Type :=
  | Retrieved
  | RaisedHTTPError
  | RaisedOther (e : exn).

(** How the download ends: it returns a boolean, or an exception leaves
    it. *)
Inductive Download : Type :=
  | Returned (success : bool)
  | Propagated (e : exn).

Definition line_colors_url : string :=
  "https://raw.githubusercontent.com/Traewelling/line-colors/refs/heads/main/line-colors.csv".

Definition download_line_color_list (urlretrieve : string -> string -> Retrieval)
    (filename : string) : Download :=
  match urlretrieve line_colors_url filename with
  | Retrieved => Returned true
  | RaisedHTTPError => Returned false
  | RaisedOther e => Propagated e
  end.

(** ** main.py: update_data *)

(** What one call of [update_data] leaves: the icon cache (the dictionary
    [icons.icon_cache] of [gui_line_icons.py], which is not among the
    sources; the keys are taken to be strings), whether the call has armed
    itself again, and how it ends. *)
Record DataCycle : Type := mkDataCycle {
  data_icon_cache : gmap string LineIcon;
  data_rearmed : bool;
  data_outcome : pyresult unit
}.

Definition update_data (urlretrieve : string -> string -> Retrieval)
    (icon_cache : gmap string LineIcon) : DataCycle :=
  match download_line_color_list urlretrieve "line-colors.csv" with
  | Propagated e => mkDataCycle icon_cache false (Raise e)
  | Returned true => mkDataCycle ∅ true (Ok ())
  | Returned false => mkDataCycle icon_cache true (Ok ())
  end.

(** ** gui.py: Window.create_windows *)

(** The dictionary of one window in the configuration, with the types that
    [config.py] has checked; [None] is a missing key. *)
Record WindowConfig : Type := mkWindowConfig {
  config_station : option string;
  config_width : option Z;
  config_height : option Z;
  config_position_x : option Z;
  config_position_y : option Z
}.

(** The inner loop (lines 30-32).  [station] is the loop variable, which
    keeps its value after the loop: the station it broke at, or the last
    one of the list, or what it was before when the list is empty. *)
Fixpoint find_station (all_stations : list Station) (window_config : WindowConfig)
    (station : option Station) : pyresult (option Station) :=
  match all_stations with
  | [] => Ok station
  | s :: rest =>
      wanted ← getitem_of (config_station window_config) "station";
      if bool_decide (name s = wanted) then Ok (Some s)
      else find_station rest window_config (Some s)
  end.

(** The outer loop.  [new] is the constructor [Window(window_config,
    station, icon_handler, config)], which builds the Tk widgets. *)
Fixpoint create_windows_loop (new : WindowConfig -> Station -> pyresult Window.t)
    (windows_config : list WindowConfig) (all_stations : list Station)
    (station : option Station) (windows : list Window.t)
    : pyresult (list Window.t) :=
  match windows_config with
  | [] => Ok windows
  | window_config :: rest =>
      station ← find_station all_stations window_config station;
      bound ← read_local station;
      window ← new window_config bound;
      create_windows_loop new rest all_stations station (windows ++ [window])
  end.

Definition create_windows (new : WindowConfig -> Station -> pyresult Window.t)
    (windows_config : list WindowConfig) (all_stations : list Station)
    : pyresult (list Window.t) :=
  create_windows_loop new windows_config all_stations None [].

(** The station a window is bound to when the list of stations is not
    empty: the first of the wanted name, and the last of the list when
    none has it. *)
Definition station_for (all_stations : list Station) (wanted : string)
    : option Station :=
  match filter (fun s => name s = wanted) all_stations with
  | s :: _ => Some s
  | [] => last all_stations
  end.

(** ** gui.py: the colours of the QR code (line 341) *)

(** [s[a:b]] *)
Definition slice (s : string) (a b : nat) : string :=
  Str.take (b - a) (Str.drop a s).

(** The two colour tuples handed to [qrcode.png], in the order in which
    the arguments are computed; [int16] is [int(_, 16)]. *)
Definition qr_code_colors (int16 : string -> pyresult Z)
    (background foreground : string)
    : pyresult ((Z * Z * Z * Z) * (Z * Z * Z * Z)) :=
  r ← int16 (slice background 1 3);
  g ← int16 (slice background 3 5);
  b ← int16 (slice background 5 7);
  r' ← int16 (slice foreground 1 2);
  g' ← int16 (slice foreground 3 4);
  b' ← int16 (slice foreground 4 5);
  Ok ((r, g, b, 255%Z), (r', g', b', 255%Z)).

(** ** config.py *)

(** How a check of the configuration ends: the section is accepted; a
    [KeyError] or [ValueError] is logged and the program quits; or another
    exception leaves the check. *)
Inductive Checked : Type :=
  | Passed
  | Quit (e : exn)
  | Uncaught (e : exn).

(** The two [except] clauses of the checks. *)
Definition quit_on_error (r : pyresult unit) : Checked :=
  match r with
  | Ok _ => Passed
  | Raise (KeyError key) => Quit (KeyError key)
  | Raise ValueError => Quit ValueError
  | Raise e => Uncaught e
  end.

(** [[A-Fa-f0-9]] *)
Definition is_hex_digit (c : ascii) : bool :=
  let n := nat_of_ascii c in
  (48 <=? n) && (n <=? 57) || (65 <=? n) && (n <=? 70) || (97 <=? n) && (n <=? 102).

Fixpoint all_hex_digits (s : string) : bool :=
  match s with
  | EmptyString => true
  | String c s' => is_hex_digit c && all_hex_digits s'
  end.

(** [s] without one line feed at its end, where it has one. *)
Fixpoint without_final_newline (s : string) : string :=
  match s with
  | EmptyString => EmptyString
  | String c EmptyString => if Ascii.eqb c "010" then EmptyString else s
  | String c s' => String c (without_final_newline s')
  end.

(** [Helper.is_color_valid]: a search for
    [^#([A-Fa-f0-9]{6}|[A-Fa-f0-9]{3})$].  [^] is the start of the string,
    and [$] its end or the place before a line feed that ends it. *)
Definition is_color_valid (color_string : string) : bool :=
  match color_string with
  | String c rest =>
      Ascii.eqb c "#" &&
      let digits := without_final_newline rest in
      all_hex_digits digits &&
      (bool_decide (String.length digits = 6) || bool_decide (String.length digits = 3))
  | EmptyString => false
  end.

(** The colours that [_check_and_get_colors] looks at, in its order. *)
Definition checked_colors : list string :=
  [ "header_background"; "header_text"; "departure_entry_lighter";
    "departure_entry_darker"; "departure_entry_text";
    "default_icon_background"; "default_icon_text";
    "qr_code_background"; "qr_code_foregreound" ].

(** The loop of [_check_and_get_colors] (lines 172-183). *)
Fixpoint check_colors_loop (colors : gmap string string) (todo : list string)
    : pyresult unit :=
  match todo with
  | [] => Ok ()
  | color :: rest =>
      value ← getitem colors color;
      if is_color_valid value then check_colors_loop colors rest
      else Raise ValueError
  end.

(** [Config._check_and_get_colors]; the argument is [config["colors"]],
    [None] where the configuration has no such section. *)
Definition check_and_get_colors (colors : option (gmap string string)) : Checked :=
  quit_on_error
    (colors ← getitem_of colors "colors";
     check_colors_loop colors checked_colors).

(** The check of one stop (lines 146-150): the reference must be there, and
    no key but the three known ones.  [bound] tells whether the local
    [try_optional_argument] holds a value; the loop of line 148 assigns it
    at every key, so it is bound once a stop with a key has got that far,
    also where line 150 raises. *)
Definition check_stop (stop : gmap string string) (bound : bool)
    : bool * pyresult unit :=
  match getitem stop "stop_point_ref" with
  | Raise e => (bound, Raise e)
  | Ok _ =>
      let keys := (map_to_list stop).*1 in
      (match keys with [] => bound | _ :: _ => true end,
       if bool_decide
            (Forall (fun key => key ∈ ["stop_point_ref"; "prefix"; "suffix"]) keys)
       then Ok ()
       else Raise ValueError)
  end.

Fixpoint check_stops (stops : list (gmap string string)) (bound : bool)
    : bool * pyresult unit :=
  match stops with
  | [] => (bound, Ok ())
  | stop :: rest =>
      match check_stop stop bound with
      | (bound, Ok _) => check_stops rest bound
      | (bound, Raise e) => (bound, Raise e)
      end
  end.

(** The check of one station (lines 142-150). *)
Definition check_station {V} (float : V -> pyresult spec_float)
    (entry : StationConfig V) (bound : bool) : bool * pyresult unit :=
  match raw ← getitem_of (config_lead_time_minutes entry) "lead_time_minutes";
        _ ← float raw;
        getitem_of (config_stops entry) "stops" with
  | Raise e => (bound, Raise e)
  | Ok stops => check_stops stops bound
  end.

Fixpoint check_stations_loop {V} (float : V -> pyresult spec_float)
    (stations : list (string * StationConfig V)) (bound : bool)
    : bool * pyresult unit :=
  match stations with
  | [] => (bound, Ok ())
  | (_, entry) :: rest =>
      match check_station float entry bound with
      | (bound, Ok _) => check_stations_loop float rest bound
      | (bound, Raise e) => (bound, Raise e)
      end
  end.

(** The [except ValueError] clause of line 157: its message reads
    [try_optional_argument], which is unbound as long as no stop has had
    its keys looked at; the handler then raises itself and [quit()] is not
    reached. *)
Definition quit_on_station_error (bound : bool) (r : pyresult unit) : Checked :=
  match r with
  | Raise ValueError =>
      if bound then Quit ValueError else Uncaught UnboundLocalError
  | _ => quit_on_error r
  end.

(** [Config._check_and_get_stations]; the argument is [config["stations"]].
    No local but [try_station] is assigned before the loops. *)
Definition check_and_get_stations {V} (float : V -> pyresult spec_float)
    (stations : option (list (string * StationConfig V))) : Checked :=
  match getitem_of stations "stations" with
  | Raise e => quit_on_station_error false (Raise e)
  | Ok stations =>
      let checked := check_stations_loop float stations false in
      quit_on_station_error checked.1 checked.2
  end.

(** ** What the further properties are measured against *)

(** The pairs of a station of the list and one of its stop points with the
    reference, in the order of the scan. *)
Definition scan_matches (stop_point_ref : string) (all_stations : list Station)
    : list (Station * StopPoint) :=
  all_stations ≫= fun s =>
    (fun p => (s, p)) <$> filter (fun p => ref_of p = stop_point_ref) (stop_points s).

(** The departure [d] carries what the record [event_result] holds. *)
Definition decoded_from (W : World) (fallback_line_icon_colors : string * string)
    (SEV_lines_use_normal_line_icon_colors : bool)
    (event_result : Element) (d : Departure) : Prop :=
  let event := ET.find_child "StopEvent" event_result in
  planned_time_of W event = Ok (planned_time d) /\
  estimated_time d = estimated_time_of W event /\
  (exists words, words_of event = Ok words /\
     assign_line_number words None = Some (line_number d)) /\
  text_at event "DestinationText" "Text" = Ok (destination d) /\
  platform_of event = Ok (platform d) /\
  text_at event "Mode" "PtMode" = Ok (mode d) /\
  get_line_color W (line_number d) "line-colors.csv"
    fallback_line_icon_colors SEV_lines_use_normal_line_icon_colors
    = Ok (background_color d, text_color d).

(** The records of a document that are of the requested stop point. *)
Definition requested_records (stop_point_ref : string) (tree_root : Element)
    : list Element :=
  filter (fun er => is_requested stop_point_ref er = Ok true)
    (ET.findall_desc "StopEventResult" tree_root).

(** The request events of a trace, and the log records. *)
Definition requests (trace : list Trace) : list string :=
  trace ≫= fun t => match t with Requested r => [r] | _ => [] end.

Definition log_records (trace : list Trace) : list exn :=
  trace ≫= fun t => match t with Logged _ e => [e] | _ => [] end.

(** What the scheduler makes of the answer for one stop point: the
    departures it adds to the aggregate. *)
Definition decoded_or_nothing (W : World) (P : Program) (stop_point : StopPoint)
    : list Departure :=
  match kvv_get W (stop_point_ref stop_point) 10 with
  | Ok response =>
      match departures_of_response W P stop_point response with
      | Ok departures => departures
      | Raise _ => []
      end
  | Raise _ => []
  end.

(** ** Concrete inputs *)

Module Ex.

(** A response element in the TRIAS namespace. *)
Definition el (local : string) (txt : option string) (cs : list Element) : Element :=
  mkElement (ET.tri local) txt cs.

Definition leaf (local txt : string) : Element := el local (Some txt) [].

Definition text_node (local txt : string) : Element :=
  el local None [leaf "Text" txt].

(** One stop-event result, with every field the decoder reads. *)
Definition stop_event_result (ref : string) (times : list Element)
    (bay : list Element) (line : string) (dest : list Element) : Element :=
  el "StopEventResult" None
    [ leaf "ResultId" "ID-1";
      el "StopEvent" None
        [ el "ThisCall" None
            [ el "CallAtStop" None
                ([ leaf "StopPointRef" ref;
                   text_node "StopPointName" "Hauptbahnhof" ]
                 ++ bay ++
                 [ el "ServiceDeparture" None times;
                   leaf "StopSeqNumber" "4" ]) ];
          el "Service" None
            ([ leaf "OperatingDayRef" "2025-01-01";
               el "Mode" None [leaf "PtMode" "tram"; text_node "Name" "Tram"];
               text_node "PublishedLineName" line ]
             ++ dest) ] ].

Definition t_1002 : string := "2025-01-01T10:02:00+00:00".
Definition t_1005 : string := "2025-01-01T10:05:00+00:00".
Definition t_1007 : string := "2025-01-01T10:07:00+00:00".

(** Microseconds since the epoch of 2025-01-01T10:00:00Z. *)
Definition at_1000 : datetime := 1735725600000000%Z.
Definition minutes (n : Z) : datetime := (at_1000 + n * 60 * 1000000)%Z.

(** The ISO parser on the three instants used here. *)
Definition fromisoformat (s : string) : pyresult datetime :=
  if bool_decide (s = t_1002) then Ok (minutes 2)
  else if bool_decide (s = t_1005) then Ok (minutes 5)
  else if bool_decide (s = t_1007) then Ok (minutes 7)
  else Raise ValueError.

Definition table : list ColorRow :=
  [ mkColorRow (Some "vbb") "12" "#000000" "#111111";
    mkColorRow (Some "KVV") "2" "#0000FF" "#FFFFFF";
    mkColorRow None "12" "#222222" "#333333";
    mkColorRow (Some "kvv-bus") "12" "#00FF00" "#000000";
    mkColorRow (Some "Kvv") "12" "#FF0000" "#FFFFFF";
    mkColorRow (Some "kvv") "IC2" "#123456" "#654321" ].

Definition read_csv (filename : string) : pyresult (list ColorRow) :=
  if bool_decide (filename = "line-colors.csv") then Ok table else Raise OSError.

Definition sp_A : StopPoint := mkStopPoint "de:08212:1" (Some "Gleis") None.
Definition sp_B : StopPoint := mkStopPoint "de:08212:2" None None.
Definition sp_C : StopPoint := mkStopPoint "de:08212:3" None (Some "a").

Definition lead (minutes : positive) : spec_float :=
  S754_finite false minutes 0.

Definition hbf : Station := mkStation "Hauptbahnhof" (lead 5) [sp_A; sp_B].
Definition markt : Station := mkStation "Marktplatz" (lead 2) [sp_C].
Definition all_stations : list Station := [hbf; markt].

Definition fallback : string * string := ("#AAAAAA", "#BBBBBB").

(** Two complete records for stop point A. *)
Definition record_1 : Element :=
  stop_event_result "de:08212:1:1"
    [leaf "TimetabledTime" t_1005; leaf "EstimatedTime" t_1007]
    [text_node "PlannedBay" "Gleis 3"]
    "Strassenbahn 2" [text_node "DestinationText" "Wolfartsweier"].

Definition record_2 : Element :=
  stop_event_result "de:08212:1:2"
    [leaf "TimetabledTime" t_1002] []
    "Bus 12" [text_node "DestinationText" "Durlach"].

(** A record of a rail replacement service. *)
Definition record_sev : Element :=
  stop_event_result "de:08212:1:1"
    [leaf "TimetabledTime" t_1002] []
    "Bus SEV 12" [text_node "DestinationText" "Durlach"].



Definition document (records : list Element) : Element :=
  el "Trias" None
    [ el "ServiceDelivery" None
        [ el "DeliveryPayload" None
            [ el "StopEventResponse" None records ] ] ].

(** The transit client: stop point A and B answer, C is unreachable. *)
Definition kvv_get (ref : string) (number_of_results : nat) : pyresult string :=
  if bool_decide (ref = "de:08212:1") then Ok "response A"
  else if bool_decide (ref = "de:08212:2") then Ok "response B"
  else Raise TransportError.

Definition ET_fromstring (response : string) : pyresult Element :=
  if bool_decide (response = "response A") then Ok (document [record_1; record_2])
  else if bool_decide (response = "response B") then Ok (document [])
  else Raise ParseError.

Definition world : World :=
  mkWorld kvv_get ET_fromstring fromisoformat read_csv (fun _ => at_1000).

(** The configuration with the colours that [config.py] checks. *)
Definition config : Config :=
  mkConfig
    (list_to_map
       [ ("header_background", "#003366"); ("header_text", "#FFFFFF");
         ("departure_entry_lighter", "#EEEEEE");
         ("departure_entry_darker", "#DDDDDD");
         ("departure_entry_text", "#000000");
         ("default_icon_background", "#AAAAAA");
         ("default_icon_text", "#BBBBBB");
         ("qr_code_background", "#FFFFFF");
         ("qr_code_foregreound", "#000000") ])
    "Europe/Berlin" true.

Definition window_hbf : Window.t := new_window config hbf 10 "#EEEEEE".
Definition window_markt : Window.t := new_window config markt 10 "#EEEEEE".

(** A second station that lists stop point A's reference with other
    adornments. *)
Definition sp_A' : StopPoint := mkStopPoint "de:08212:1" None (Some "Nord").
Definition zoo : Station := mkStation "Zoo" (lead 3) [sp_A'; sp_B].
Definition window_zoo : Window.t := new_window config zoo 10 "#EEEEEE".

(** A departure of station [s] with the given times. *)
Definition departure (line : string) (s : Station) (planned : datetime)
    (estimated : option datetime) : Departure :=
  mkDeparture line (Some "Durlach") None s sp_A (Some "tram")
    "#AAAAAA" "#BBBBBB" planned estimated.

(** What the decoder makes of [record_1] and [record_2]. *)
Definition departure_1 : Departure :=
  mkDeparture "2" (Some "Wolfartsweier") (Some "3") hbf sp_A
    (Some "tram") "#0000FF" "#FFFFFF" (minutes 5) (Some (minutes 7)).
Definition departure_2 : Departure :=
  mkDeparture "12" (Some "Durlach") None hbf sp_A
    (Some "tram") "#00FF00" "#000000" (minutes 2) None.

Definition dep_1005 : Departure := departure "1" hbf (minutes 5) (Some (minutes 5)).
Definition dep_1002 : Departure := departure "2" hbf (minutes 2) None.

(** The program with a window for Marktplatz and one for Hauptbahnhof: the
    stop points in use are C (unreachable), A and B. *)
Definition program : Program :=
  mkProgram config all_stations [window_markt; window_hbf]
    (get_all_used_stoppoints [window_markt; window_hbf]).

(** The same with the windows the other way round: A, B, then C. *)
Definition program' : Program :=
  mkProgram config all_stations [window_hbf; window_markt]
    (get_all_used_stoppoints [window_hbf; window_markt]).

(** Twelve departures of Hauptbahnhof, line [n] planned at 10:00 plus
    [20 - n] minutes, so that the latest comes first. *)
Definition twelve : list Departure :=
  (fun n : nat => departure (pretty n) hbf (minutes (20 - Z.of_nat n)) None)
    <$> seq 1 12.

(** A configuration that also has the two colours [clear] asks for. *)
Definition config_with_clear_colours : Config :=
  mkConfig
    (<["DepartureEntry_lighter" := "#EEEEEE"]>
       (<["DepartureEntry_darker" := "#DDDDDD"]> (colors config)))
    "Europe/Berlin" true.

(** The window of Hauptbahnhof under that configuration. *)
Definition window_hbf' : Window.t :=
  new_window config_with_clear_colours hbf 10 "#EEEEEE".

End Ex.

(** What a refresh leaves of a window: its station, capacity and
    configuration, the number of its slots, and the header slot. *)
Definition same_frame (w w' : Window.t) : Prop :=
  Window.station w' = Window.station w /\
  Window.number_of_departure_entries w' = Window.number_of_departure_entries w /\
  Window.config w' = Window.config w /\
  length (Window.departure_entries w') = length (Window.departure_entries w) /\
  Window.departure_entries w' !! 0 = Window.departure_entries w !! 0.

(** ** Further concrete inputs *)

Module Ex2.

(** [float] on the two numbers of the configuration below. *)
Definition float (raw : string) : pyresult spec_float :=
  if bool_decide (raw = "5") then Ok (Ex.lead 5)
  else if bool_decide (raw = "2") then Ok (Ex.lead 2)
  else Raise ValueError.

Definition stop (ref : string) (adornments : list (string * string))
    : gmap string string :=
  <["stop_point_ref" := ref]> (list_to_map adornments).

(** The stations section that gives [Ex.all_stations]. *)
Definition stations_config : list (string * StationConfig string) :=
  [ ("Hauptbahnhof",
     mkStationConfig (Some "5")
       (Some [stop "de:08212:1" [("prefix", "Gleis")]; stop "de:08212:2" []]));
    ("Marktplatz",
     mkStationConfig (Some "2") (Some [stop "de:08212:3" [("suffix", "a")]])) ].

(** A stop without reference. *)
Definition stop_without_reference : gmap string string :=
  list_to_map [("prefix", "Gleis")].

Definition stations_config_without_reference
    : list (string * StationConfig string) :=
  [ ("Hauptbahnhof",
     mkStationConfig (Some "5")
       (Some [stop "de:08212:1" []; stop_without_reference])) ].

(** Three windows: Marktplatz, Hauptbahnhof, and a name no station has. *)
Definition window_config (station : string) : WindowConfig :=
  mkWindowConfig (Some station) (Some 1920%Z) (Some 1080%Z) (Some 0%Z) (Some 0%Z).

Definition windows_config : list WindowConfig :=
  [window_config "Marktplatz"; window_config "Hauptbahnhof";
   window_config "Zoo"].

(** The constructor, as far as the window's state is modelled. *)
Definition new (window_config : WindowConfig) (station : Station)
    : pyresult Window.t :=
  Ok (new_window Ex.config station 10 "#EEEEEE").

(** What the decoder makes of [Ex.record_1] when the station Zoo, which
    lists the reference of stop point A too, comes after Hauptbahnhof. *)
Definition departure_1_zoo : Departure :=
  mkDeparture "2" (Some "Wolfartsweier") (Some "3") Ex.zoo Ex.sp_A'
    (Some "tram") "#0000FF" "#FFFFFF" (Ex.minutes 5) (Some (Ex.minutes 7)).

(** Clients of [urlretrieve]: one that saves the file, one that gets an
    error status, one that does not reach the host. *)
Definition urlretrieve_ok (url filename : string) : Retrieval := Retrieved.
Definition urlretrieve_404 (url filename : string) : Retrieval := RaisedHTTPError.
Definition urlretrieve_offline (url filename : string) : Retrieval :=
  RaisedOther TransportError.

Definition icon_cache : gmap string LineIcon :=
  {[ "tram 2" := mkLineIcon (Some "tram") "2" "#0000FF" "#FFFFFF" ]}.

(** [int(_, 16)] on strings of hexadecimal digits. *)
Definition hex_value (c : ascii) : Z :=
  let n := Z.of_nat (nat_of_ascii c) in
  if (n <=? 57)%Z then (n - 48)%Z
  else if (n <=? 70)%Z then (n - 55)%Z
  else (n - 87)%Z.

Fixpoint hex_digits_value (s : string) (acc : Z) : Z :=
  match s with
  | EmptyString => acc
  | String c s' => hex_digits_value s' (16 * acc + hex_value c)%Z
  end.

Definition int16 (s : string) : pyresult Z :=
  if bool_decide (s = EmptyString) then Raise ValueError
  else if all_hex_digits s then Ok (hex_digits_value s 0%Z)
  else Raise ValueError.

(** A program whose client answers for every stop point in use, and whose
    window has the colours that [clear] asks for. *)
Definition program : Program :=
  mkProgram Ex.config Ex.all_stations [Ex.window_hbf']
    (get_all_used_stoppoints [Ex.window_hbf']).

End Ex2.

(** * Properties *)

Example decode_two_records :
  get_departures_from_xml Ex.world "de:08212:1"
    (Ex.document [Ex.record_1; Ex.record_2]) Ex.all_stations Ex.fallback true
  = Ok [Ex.departure_1; Ex.departure_2].
Proof. vm_compute. reflexivity. Qed.

(** ** Strings *)

Section strings.

Lemma split_cons sep s : exists w ws, Str.split sep s = w :: ws.
Proof.
  destruct s as [|c s]; simpl; [by eauto|].
  destruct (Ascii.eqb c sep); [by eauto|].
  destruct (Str.split sep s); eauto.
Qed.

Lemma split_length sep s : 0 < length (Str.split sep s).
Proof. destruct (split_cons sep s) as (w & ws & ->). simpl. lia. Qed.

Lemma join_cons_cons sep w w' ws :
  Str.join sep (w :: w' :: ws) = w +:+ sep +:+ Str.join sep (w' :: ws).
Proof. done. Qed.

(** Joining the characters of a string with nothing between them gives the
    string back. *)
Lemma join_chars s : Str.join "" (Str.chars s) = s.
Proof.
  induction s as [|c s IH]; [done|].
  destruct s as [|d s]; [done|].
  change (Str.chars (String c (String d s)))
    with (String c "" :: String d "" :: Str.chars s).
  rewrite join_cons_cons.
  change (Str.chars (String d s)) with (String d "" :: Str.chars s) in IH.
  by rewrite IH.
Qed.

Lemma startswith_app s p q :
  Str.startswith s (p +:+ q) = true -> Str.startswith s p = true.
Proof.
  revert s; induction p as [|c p IH]; intros s; [done|].
  change (String c p +:+ q) with (String c (p +:+ q)).
  destruct s as [|d s]; simpl; [done|].
  intros [? ?]%andb_true_iff. apply andb_true_iff; eauto.
Qed.

Lemma startswith_cons d s c p :
  Str.startswith (String d s) (String c p) = Ascii.eqb c d && Str.startswith s p.
Proof. done. Qed.

(** Two prefixes of one string start with the same character. *)
Lemma startswith_first s c p c' p' :
  Str.startswith s (String c p) = true ->
  Str.startswith s (String c' p') = true -> c = c'.
Proof.
  destruct s as [|d s]; [done|]. rewrite !startswith_cons.
  intros [->%Ascii.eqb_eq _]%andb_true_iff [->%Ascii.eqb_eq _]%andb_true_iff.
  done.
Qed.

Lemma take_startswith s p :
  Str.take (String.length p) s = p <-> Str.startswith s p = true.
Proof.
  revert s; induction p as [|c p IH]; intros s; simpl; [done|].
  destruct s as [|d s]; [done|].
  rewrite andb_true_iff, <- IH, Ascii.eqb_eq. split.
  - intros [= -> ->]. done.
  - intros [-> ->]. done.
Qed.

End strings.

(** ** get_line_color *)

Section line_color.

Context (W : World).

(** C8. A line name that starts with "ICE" or "IC" resolves to the fixed
    rail pair and one that starts with "FLX" to the fixed coach pair,
    whatever the table file holds (also when it cannot be read), whatever
    the fallback pair and whatever the SEV flag. *)
Theorem get_line_color_overrides line_name filename fallback_colors sev :
  (Str.startswith line_name "ICE" = true \/ Str.startswith line_name "IC" = true ->
   get_line_color W line_name filename fallback_colors sev
     = Ok ("#EC0016", "#FFFFFF")) /\
  (Str.startswith line_name "FLX" = true ->
   get_line_color W line_name filename fallback_colors sev
     = Ok ("#97d700", "#FFFFFF")).
Proof.
  unfold get_line_color. split.
  - intros [H|H]; rewrite H; [done|]. by rewrite orb_true_r.
  - intros H. rewrite H.
    assert (Str.startswith line_name "IC" = false) as HIC.
    { destruct (Str.startswith line_name "IC") eqn:E; [|done].
      by pose proof (startswith_first _ _ _ _ _ H E). }
    assert (Str.startswith line_name "ICE" = false) as ->.
    { destruct (Str.startswith line_name "ICE") eqn:E; [|done].
      apply (startswith_app _ "IC" "E") in E. congruence. }
    by rewrite HIC.
Qed.

(** C9. For a line name outside the overrides and a readable table: when no
    row of the operator-filtered table has the line name, the search is
    repeated with the first three characters removed if the flag is set and
    the name starts with "SEV", and the first row found gives the pair; in
    every other case the fallback pair comes back as it was given. *)
Theorem get_line_color_retry_and_fallback line_name filename fallback_colors sev df :
  Str.startswith line_name "ICE" = false ->
  Str.startswith line_name "IC" = false ->
  Str.startswith line_name "FLX" = false ->
  read_csv W filename = Ok df ->
  filter (fun row => lineName row = line_name)
    (filter (fun row => operator_is_kvv row = true) df) = [] ->
  get_line_color W line_name filename fallback_colors sev =
    if sev && Str.startswith line_name "SEV" then
      match filter (fun row => lineName row = Str.drop 3 line_name)
              (filter (fun row => operator_is_kvv row = true) df) with
      | row :: _ => Ok (backgroundColor row, textColor row)
      | [] => Ok fallback_colors
      end
    else Ok fallback_colors.
Proof.
  intros HICE HIC HFLX Hread Hnone.
  unfold get_line_color. rewrite HICE, HIC, HFLX, Hread.
  cbn [orb mbind pyresult_bind]. rewrite Hnone.
  assert (bool_decide (Str.take 3 line_name = "SEV")
          = Str.startswith line_name "SEV") as ->.
  { destruct (Str.startswith line_name "SEV") eqn:E.
    - apply bool_decide_eq_true_2, (take_startswith line_name "SEV"), E.
    - apply bool_decide_eq_false_2.
      intros H%(take_startswith line_name "SEV"). congruence. }
  destruct (sev && Str.startswith line_name "SEV"); [|done].
  by destruct (filter (fun row => lineName row = Str.drop 3 line_name) _).
Qed.

(** X4. A row found by the first search gives its pair: for a line name
    outside the overrides that the operator-filtered table has, the first
    row of that name gives the colours, whatever the flag, and the name
    without "SEV" is not looked up. *)
Lemma get_line_color_direct line_name filename fallback_colors sev df row rows :
  Str.startswith line_name "ICE" = false ->
  Str.startswith line_name "IC" = false ->
  Str.startswith line_name "FLX" = false ->
  read_csv W filename = Ok df ->
  filter (fun row => lineName row = line_name)
    (filter (fun row => operator_is_kvv row = true) df) = row :: rows ->
  get_line_color W line_name filename fallback_colors sev
    = Ok (backgroundColor row, textColor row).
Proof.
  intros HICE HIC HFLX Hread Hsome.
  unfold get_line_color. rewrite HICE, HIC, HFLX, Hread.
  cbn [orb mbind pyresult_bind]. by rewrite Hsome.
Qed.

End line_color.

Lemma get_line_color_overrides_witness :
  get_line_color Ex.world "ICE123" "no such file" Ex.fallback false
    = Ok ("#EC0016", "#FFFFFF") /\
  get_line_color Ex.world "IC2" "line-colors.csv" Ex.fallback true
    = Ok ("#EC0016", "#FFFFFF") /\
  get_line_color Ex.world "FLXFlixbus" "no such file" Ex.fallback true
    = Ok ("#97d700", "#FFFFFF").
Proof.
  split; [|split].
  - apply (get_line_color_overrides Ex.world "ICE123"). left. reflexivity.
  - apply (get_line_color_overrides Ex.world "IC2"). right. reflexivity.
  - apply (get_line_color_overrides Ex.world "FLXFlixbus"). reflexivity.
Defined.

Lemma get_line_color_retry_and_fallback_witness :
  get_line_color Ex.world "SEV12" "line-colors.csv" Ex.fallback true
    = Ok ("#00FF00", "#000000") /\
  get_line_color Ex.world "SEV12" "line-colors.csv" Ex.fallback false
    = Ok Ex.fallback /\
  get_line_color Ex.world "SEV99" "line-colors.csv" Ex.fallback true
    = Ok Ex.fallback.
Proof.
  split; [|split].
  - apply (get_line_color_retry_and_fallback Ex.world "SEV12" _ _ true Ex.table);
      reflexivity.
  - apply (get_line_color_retry_and_fallback Ex.world "SEV12" _ _ false Ex.table);
      reflexivity.
  - apply (get_line_color_retry_and_fallback Ex.world "SEV99" _ _ true Ex.table);
      reflexivity.
Defined.

(** ** The sort *)

Section sort.

Context {A : Type} (key : A -> Z).

Lemma insert_by_perm x l : insert_by key x l ≡ₚ x :: l.
Proof.
  induction l as [|y l IH]; simpl; [done|].
  destruct (key x <=? key y)%Z; [done|].
  rewrite IH. apply perm_swap.
Qed.

Lemma sort_by_perm l : sort_by key l ≡ₚ l.
Proof.
  induction l as [|x l IH]; simpl; [done|].
  by rewrite insert_by_perm, IH.
Qed.

Lemma insert_by_sorted x l :
  StronglySorted (key_le key) l -> StronglySorted (key_le key) (insert_by key x l).
Proof.
  induction 1 as [|y l Hl IH Hy]; simpl.
  - repeat constructor.
  - destruct (key x <=? key y)%Z eqn:E.
    + apply Z.leb_le in E. constructor; [by constructor|].
      constructor; [done|].
      eapply Forall_impl; [exact Hy|]. unfold key_le. intros; lia.
    + apply Z.leb_gt in E. constructor; [done|].
      rewrite insert_by_perm. constructor; [unfold key_le; lia|done].
Qed.

Lemma sort_by_strongly_sorted l : StronglySorted (key_le key) (sort_by key l).
Proof.
  induction l as [|x l IH]; simpl; [constructor|].
  by apply insert_by_sorted.
Qed.

Lemma sort_by_sorted l : Sorted (key_le key) (sort_by key l).
Proof. apply StronglySorted_Sorted, sort_by_strongly_sorted. Qed.

(** Insertion keeps the new element in front of those of its key. *)
Lemma insert_by_filter k x l :
  filter (fun a => key a = k) (insert_by key x l)
    = filter (fun a => key a = k) (x :: l).
Proof.
  induction l as [|y l IH]; simpl; [done|].
  destruct (key x <=? key y)%Z eqn:E; [done|].
  apply Z.leb_gt in E.
  rewrite (filter_cons _ y), IH, !filter_cons.
  repeat case_decide; try done; lia.
Qed.

(** Stability: elements of equal key keep their order. *)
Lemma sort_by_stable k l :
  filter (fun a => key a = k) (sort_by key l) = filter (fun a => key a = k) l.
Proof.
  induction l as [|x l IH]; simpl; [done|].
  rewrite insert_by_filter, !filter_cons, IH. done.
Qed.

(** Two sorted lists in which the elements of each key come in the same
    order are the same list. *)
Lemma sorted_stable_unique l1 l2 :
  StronglySorted (key_le key) l1 -> StronglySorted (key_le key) l2 ->
  (forall k, filter (fun a => key a = k) l1 = filter (fun a => key a = k) l2) ->
  l1 = l2.
Proof.
  intros H1; revert l2. induction H1 as [|x l1 Hl1 IH Hx]; intros l2 H2 Hf.
  - destruct l2 as [|y l2]; [done|].
    specialize (Hf (key y)). rewrite filter_cons_True in Hf by done. done.
  - destruct H2 as [|y l2 Hl2 Hy].
    + specialize (Hf (key x)). rewrite filter_cons_True in Hf by done. done.
    + assert (forall z (l l' : list A), filter (fun a => key a = key z) l
                = filter (fun a => key a = key z) l' -> z ∈ l -> z ∈ l') as Hin.
      { intros z l l' E Hz.
        assert (z ∈ filter (fun a => key a = key z) l) as Hz'
          by (apply list_elem_of_filter; done).
        rewrite E in Hz'. by apply list_elem_of_filter in Hz' as [_ ?]. }
      assert (key x = key y) as Hk.
      { assert (y ∈ x :: l1) as Hy1
          by (apply (Hin y (y :: l2)); [by rewrite Hf|left]).
        assert (x ∈ y :: l2) as Hx2
          by (apply (Hin x (x :: l1)); [by rewrite Hf|left]).
        assert ((key_le key) x y).
        { apply elem_of_cons in Hy1 as [->|Hy1]; [unfold key_le; lia|].
          by eapply Forall_forall in Hx. }
        assert ((key_le key) y x).
        { apply elem_of_cons in Hx2 as [->|Hx2]; [unfold key_le; lia|].
          by eapply Forall_forall in Hy. }
        unfold key_le in *. lia. }
      pose proof (Hf (key x)) as Hfx.
      rewrite filter_cons_True in Hfx by done.
      rewrite filter_cons_True in Hfx by done.
      injection Hfx as -> Hfx. f_equal. apply IH; [done|].
      intros k. specialize (Hf k). rewrite !filter_cons in Hf.
      case_decide; [by injection Hf|done].
Qed.

(** Whatever stable ascending sort the interpreter runs, its result is that
    of [sort_by]. *)
Lemma stable_sort_unique l l' :
  Sorted (key_le key) l' ->
  (forall k, filter (fun a => key a = k) l' = filter (fun a => key a = k) l) ->
  l' = sort_by key l.
Proof.
  intros Hs Hf. apply sorted_stable_unique.
  - apply Sorted_StronglySorted; [|done]. intros a b c. unfold key_le. lia.
  - apply sort_by_strongly_sorted.
  - intros k. by rewrite Hf, sort_by_stable.
Qed.

End sort.

(** ** The filter and the sort of a window's departures *)

Section window_departures.

Context (W : World).

Lemma filter_loop_app (window : Window.t) (acc l : list Departure) :
  foldl (fun window_departures departure =>
           if bool_decide (station departure = Window.station window)
           then window_departures ++ [departure]
           else window_departures) acc l
  = acc ++ filter (fun d => station d = Window.station window) l.
Proof.
  revert acc; induction l as [|d l IH]; intros acc; simpl.
  - by rewrite app_nil_r.
  - rewrite IH, filter_cons. case_bool_decide.
    + rewrite decide_True by done. by rewrite <- app_assoc.
    + by rewrite decide_False by done.
Qed.

Lemma get_departures_for_window_filter window all_departures :
  get_departures_for_window window all_departures
    = filter (fun d => station d = Window.station window) all_departures.
Proof. apply (filter_loop_app window []). Qed.

(** The list is sorted before anything else happens in [refresh]. *)
Lemma refreshed_departures_sort_by self departures :
  refreshed_departures (refresh W self departures) = sort_by sort_key departures.
Proof.
  unfold refresh. case_bool_decide; [done|].
  by destruct (_ ≫= read_local).
Qed.

(** In a sorted list, an element of smaller key stands before one of
    larger key. *)
Lemma sorted_before {A} (key : A -> Z) (l : list A) a b :
  StronglySorted (key_le key) l -> a ∈ l -> b ∈ l -> (key a < key b)%Z ->
  exists l1 l2 l3, l = l1 ++ a :: l2 ++ b :: l3.
Proof.
  intros Hs Ha Hb Hlt.
  apply list_elem_of_split in Ha as (l1 & r & ->).
  apply StronglySorted_app in Hs as (Hcross & _ & Hr).
  apply elem_of_app in Hb as [Hb|Hb].
  - assert (key_le key b a) as Hba by (apply Hcross; [done|left]).
    unfold key_le in Hba. lia.
  - apply elem_of_cons in Hb as [->|Hb]; [lia|].
    apply list_elem_of_split in Hb as (l2 & l3 & ->). eauto.
Qed.

(** C6. The list a window is handed holds exactly the departures of the
    window's station (each as often as the aggregate has it), ascending in
    the estimated time where there is one and else the planned time, with
    departures of equal time in the order of the aggregate; so a departure
    without estimate stands before one whose estimate is later than its
    planned time. *)
Theorem window_departures_filtered_and_sorted window all_departures :
  let own := filter (fun d => station d = Window.station window) all_departures in
  let handed :=
    refreshed_departures
      (refresh W window (get_departures_for_window window all_departures)) in
  handed ≡ₚ own /\
  Sorted (key_le sort_key) handed /\
  (forall t, filter (fun d => sort_key d = t) handed
             = filter (fun d => sort_key d = t) own) /\
  (forall a b t,
     a ∈ own -> b ∈ own ->
     estimated_time a = None -> estimated_time b = Some t ->
     (planned_time a < t)%Z ->
     exists l1 l2 l3, handed = l1 ++ a :: l2 ++ b :: l3).
Proof.
  intros own handed. subst own handed.
  rewrite refreshed_departures_sort_by, get_departures_for_window_filter.
  split; [apply sort_by_perm|].
  split; [apply sort_by_sorted|].
  split; [intros t; apply sort_by_stable|].
  intros a b t Ha Hb Ea Eb Hlt.
  apply (sorted_before sort_key); [apply sort_by_strongly_sorted|..].
  - by rewrite sort_by_perm.
  - by rewrite sort_by_perm.
  - unfold sort_key. rewrite Ea, Eb. done.
Qed.

(** C10. [refresh] sorts the list it is given in place: what the caller
    holds afterwards is a permutation of what it passed, ascending in the
    estimated time where there is one and else the planned time, with
    departures of equal time in the order they came, however the call ends;
    so of two departures passed, the one of earlier time stands first
    afterwards. *)
Theorem refresh_sorts_the_callers_list self departures :
  let after := refreshed_departures (refresh W self departures) in
  let time (d : Departure) : Z :=
    match estimated_time d with
    | Some estimated => estimated
    | None => planned_time d
    end in
  after ≡ₚ departures /\
  Sorted (key_le sort_key) after /\
  after = sort_by sort_key departures /\
  Sorted (fun a b => (time a <= time b)%Z) after /\
  (forall t, filter (fun d => time d = t) after
             = filter (fun d => time d = t) departures) /\
  (forall a b,
     a ∈ departures -> b ∈ departures -> (time a < time b)%Z ->
     exists l1 l2 l3, after = l1 ++ a :: l2 ++ b :: l3).
Proof.
  intros after time. subst after.
  assert (forall d, sort_key d = time d) as Hkey by done.
  rewrite refreshed_departures_sort_by.
  split; [apply sort_by_perm|]. split; [apply sort_by_sorted|].
  split; [done|].
  split; [exact (sort_by_sorted sort_key departures)|].
  split; [intros t; exact (sort_by_stable sort_key t departures)|].
  intros a b Ha Hb Hlt.
  apply (sorted_before sort_key); [apply sort_by_strongly_sorted|..].
  - by rewrite sort_by_perm.
  - by rewrite sort_by_perm.
  - by rewrite !Hkey.
Qed.

End window_departures.

Lemma refresh_sorts_the_callers_list_witness :
  exists l1 l2 l3,
    refreshed_departures
      (refresh Ex.world Ex.window_hbf [Ex.dep_1005; Ex.dep_1002])
    = l1 ++ Ex.dep_1002 :: l2 ++ Ex.dep_1005 :: l3.
Proof.
  apply (refresh_sorts_the_callers_list Ex.world Ex.window_hbf
           [Ex.dep_1005; Ex.dep_1002]).
  - vm_compute. right. left.
  - vm_compute. left.
  - vm_compute. reflexivity.
Defined.

Lemma window_departures_filtered_and_sorted_witness :
  exists l1 l2 l3,
    refreshed_departures
      (refresh Ex.world Ex.window_hbf
         (get_departures_for_window Ex.window_hbf [Ex.dep_1005; Ex.dep_1002]))
    = l1 ++ Ex.dep_1002 :: l2 ++ Ex.dep_1005 :: l3.
Proof.
  apply (window_departures_filtered_and_sorted Ex.world Ex.window_hbf
           [Ex.dep_1005; Ex.dep_1002])
    with (t := Ex.minutes 5).
  - vm_compute. right. left.
  - vm_compute. left.
  - reflexivity.
  - reflexivity.
  - vm_compute. reflexivity.
Defined.

(** The list the caller passed comes back in another order. *)
Example refresh_reorders :
  refreshed_departures (refresh Ex.world Ex.window_hbf [Ex.dep_1005; Ex.dep_1002])
    = [Ex.dep_1002; Ex.dep_1005].
Proof. vm_compute. reflexivity. Qed.

(** ** get_all_used_stoppoints *)

Section first_occurrences.

Context {A : Type} `{EqDecision A}.

Lemma elem_of_first_occurrences (l : list A) x :
  x ∈ first_occurrences l <-> x ∈ l.
Proof.
  induction l as [|y l IH]; simpl; [done|].
  rewrite !elem_of_cons, list_elem_of_filter, IH.
  destruct (decide (x = y)); naive_solver.
Qed.

Lemma NoDup_first_occurrences (l : list A) : NoDup (first_occurrences l).
Proof.
  induction l as [|y l IH]; simpl; constructor.
  - rewrite list_elem_of_filter. naive_solver.
  - by apply NoDup_filter.
Qed.

(** The loop that appends what it has not yet got. *)
Lemma append_new_loop (acc l : list A) :
  foldl (fun acc x => if bool_decide (x ∉ acc) then acc ++ [x] else acc) acc l
  = acc ++ filter (fun x => x ∉ acc) (first_occurrences l).
Proof.
  revert acc; induction l as [|x l IH]; intros acc; simpl.
  - by rewrite app_nil_r.
  - rewrite IH, filter_cons, list_filter_filter. case_bool_decide as Hx.
    + rewrite decide_True by done. rewrite <- app_assoc. simpl. do 2 f_equal.
      apply list_filter_iff. intros y. rewrite elem_of_app, list_elem_of_singleton.
      naive_solver.
    + rewrite decide_False by (intros Hn; by apply Hn). f_equal.
      apply list_filter_iff. intros y. split; [|naive_solver].
      intros Hy. split; [done|]. intros ->. by apply Hy.
Qed.

Lemma filter_all (P : A -> Prop) `{!forall x, Decision (P x)} (l : list A) :
  (forall x, P x) -> filter P l = l.
Proof.
  intros HP. induction l as [|x l IH]; [done|].
  by rewrite filter_cons_True, IH.
Qed.

Lemma first_occurrences_length (l : list A) :
  length (first_occurrences l) = length (remove_dups l).
Proof.
  apply Permutation_length, NoDup_Permutation.
  - apply NoDup_first_occurrences.
  - apply NoDup_remove_dups.
  - intros x. by rewrite elem_of_first_occurrences, elem_of_remove_dups.
Qed.

End first_occurrences.

Lemma stop_point_loops windows acc :
  foldl (fun all_stop_points window =>
           foldl (fun all_stop_points stop_point =>
                    if bool_decide (stop_point ∉ all_stop_points)
                    then all_stop_points ++ [stop_point]
                    else all_stop_points)
                 all_stop_points (stop_points (Window.station window)))
        acc windows
  = foldl (fun acc x => if bool_decide (x ∉ acc) then acc ++ [x] else acc)
      acc (used_stop_points windows).
Proof.
  revert acc; induction windows as [|w ws IH]; intros acc; [done|].
  unfold used_stop_points in *. simpl. by rewrite foldl_app, IH.
Qed.

(** The two loops collect the first occurrences. *)
Lemma get_all_used_stoppoints_eq windows :
  get_all_used_stoppoints windows = first_occurrences (used_stop_points windows).
Proof.
  unfold get_all_used_stoppoints.
  rewrite stop_point_loops, append_new_loop. simpl.
  apply filter_all. intros sp. apply not_elem_of_nil.
Qed.

(** C5, as the code has it. The distinct stop points are collected by the
    equality of the dataclass, which compares reference, prefix and suffix
    together: the result is the list of first occurrences of the stop-point
    values over the windows' stations, without repetition, and as long as
    there are distinct values. *)
Theorem get_all_used_stoppoints_first_occurrences windows :
  get_all_used_stoppoints windows = first_occurrences (used_stop_points windows) /\
  NoDup (get_all_used_stoppoints windows) /\
  (forall sp, sp ∈ get_all_used_stoppoints windows <-> sp ∈ used_stop_points windows) /\
  length (get_all_used_stoppoints windows)
    = length (remove_dups (used_stop_points windows)).
Proof.
  rewrite get_all_used_stoppoints_eq. split; [done|].
  split; [apply NoDup_first_occurrences|].
  split; [intros sp; apply elem_of_first_occurrences|].
  apply first_occurrences_length.
Qed.

(** Where the stop points in use with one reference all have one prefix and
    one suffix, no reference comes twice. *)
Lemma get_all_used_stoppoints_refs windows :
  (forall sp sp', sp ∈ used_stop_points windows -> sp' ∈ used_stop_points windows ->
     stop_point_ref sp = stop_point_ref sp' -> sp = sp') ->
  NoDup (stop_point_ref <$> get_all_used_stoppoints windows).
Proof.
  intros Hinj. rewrite get_all_used_stoppoints_eq.
  apply NoDup_fmap_2_strong; [|apply NoDup_first_occurrences].
  intros sp sp' Hsp Hsp'. apply Hinj; by apply elem_of_first_occurrences.
Qed.

(** C5, as stated, fails: two stations that list one reference with
    different adornments give two stop points of that reference. *)
Lemma same_ref_kept_twice :
  get_all_used_stoppoints [Ex.window_hbf; Ex.window_zoo]
    = [Ex.sp_A; Ex.sp_B; Ex.sp_A'] /\
  stop_point_ref Ex.sp_A = stop_point_ref Ex.sp_A' /\
  ~ NoDup (stop_point_ref <$> get_all_used_stoppoints [Ex.window_hbf; Ex.window_zoo]) /\
  length (get_all_used_stoppoints [Ex.window_hbf; Ex.window_zoo])
    <> length (remove_dups
                 (stop_point_ref <$> used_stop_points [Ex.window_hbf; Ex.window_zoo])).
Proof.
  assert (get_all_used_stoppoints [Ex.window_hbf; Ex.window_zoo]
          = [Ex.sp_A; Ex.sp_B; Ex.sp_A']) as E by (vm_compute; reflexivity).
  rewrite E. split; [done|]. split; [done|]. split.
  - intros Hnd. apply NoDup_cons in Hnd as [Hnot _]. apply Hnot.
    right. left.
  - vm_compute. lia.
Qed.

(** ** The decoder *)

Lemma bind_Ok {A B} (m : pyresult A) (k : A -> pyresult B) b :
  m ≫= k = Ok b -> exists a, m = Ok a /\ k a = Ok b.
Proof. destruct m as [a|e]; [by exists a|done]. Qed.

(** Take the next step of a computation that is known to return. *)
Tactic Notation "next_step" hyp(H) "as" ident(x) ident(E) :=
  apply bind_Ok in H as (x & E & H).

Section decoder.

Context (W : World) (stop_point_ref : string) (all_stations : list Station).
Context (fallback_line_icon_colors : string * string).
Context (SEV_lines_use_normal_line_icon_colors : bool).

Local Abbreviation decode_one :=
  (decode_event_result W stop_point_ref all_stations
     fallback_line_icon_colors SEV_lines_use_normal_line_icon_colors).
Local Abbreviation decode_all :=
  (decode_event_results W stop_point_ref all_stations
     fallback_line_icon_colors SEV_lines_use_normal_line_icon_colors).

(** *** The stop-point scan *)

Lemma scan_station_consistent station stop_points' bound :
  station ∈ all_stations ->
  stop_points' ⊆ stop_points station ->
  bound_consistent stop_point_ref all_stations bound ->
  bound_consistent stop_point_ref all_stations
    (foldl (fun bound stop_point =>
              if bool_decide (ref_of stop_point = stop_point_ref)
              then (Some station, Some stop_point)
              else bound)
           bound stop_points').
Proof.
  intros Hs. revert bound.
  induction stop_points' as [|p ps IH]; intros bound Hsub Hb; [done|].
  simpl. apply IH; [set_solver|].
  case_bool_decide as Hp; [|done].
  intros s' p' [= <-] [= <-]. repeat split; [done| |done].
  apply Hsub. left.
Qed.

Lemma scan_consistent bound :
  bound_consistent stop_point_ref all_stations bound ->
  bound_consistent stop_point_ref all_stations
    (scan_stop_points stop_point_ref all_stations bound).
Proof.
  unfold scan_stop_points.
  assert (forall l bound,
            l ⊆ all_stations ->
            bound_consistent stop_point_ref all_stations bound ->
            bound_consistent stop_point_ref all_stations
              (foldl (fun bound station =>
                        foldl (fun bound stop_point =>
                                 if bool_decide (ref_of stop_point = stop_point_ref)
                                 then (Some station, Some stop_point)
                                 else bound)
                              bound (stop_points station))
                     bound l)) as Hgen.
  { induction l as [|s l IH]; intros b Hsub Hb; [done|].
    simpl. apply IH; [set_solver|].
    apply scan_station_consistent; [set_solver|done|done]. }
  apply Hgen. done.
Qed.


(** *** One record *)

(** A record that is not of the requested stop point changes nothing. *)
Lemma decode_skipped locals event_result :
  is_requested stop_point_ref event_result = Ok false ->
  decode_one locals event_result = Ok (locals, None).
Proof. intros H. unfold decode_event_result. by rewrite H. Qed.

(** What a record that decodes leaves behind. *)
Lemma decode_one_Ok locals event_result locals' departure :
  bound_consistent stop_point_ref all_stations
    (local_departure_station locals, local_departure_stop_point locals) ->
  decode_one locals event_result = Ok (locals', departure) ->
  bound_consistent stop_point_ref all_stations
    (local_departure_station locals', local_departure_stop_point locals') /\
  (forall d, departure = Some d ->
     consistent stop_point_ref all_stations (station d) (stop_point d)).
Proof.
  intros Hb H. unfold decode_event_result in H.
  next_step H as v_requested E_requested. destruct v_requested; simpl in H.
  2: { injection H as <- <-. done. }
  next_step H as v_planned_time E_planned_time. next_step H as v_words E_words. next_step H as v_destination E_destination.
  next_step H as v_platform E_platform. next_step H as v_mode E_mode. next_step H as v_line_number E_line_number.
  next_step H as v_colors E_colors.
  next_step H as v_departure_station E_departure_station.
  next_step H as v_departure_stop_point E_departure_stop_point.
  injection H as <- <-. simpl.
  pose proof (scan_consistent _ Hb) as Hscan.
  split.
  - intros s p. apply Hscan.
  - intros d [= <-]. simpl. apply Hscan.
    + destruct (scan_stop_points _ _ _).1; [|done].
      by injection E_departure_station as ->.
    + destruct (scan_stop_points _ _ _).2; [|done].
      by injection E_departure_stop_point as ->.
Qed.






(** *** The loop *)

Lemma decode_all_consistent event_results locals departures result :
  bound_consistent stop_point_ref all_stations
    (local_departure_station locals, local_departure_stop_point locals) ->
  Forall (fun d => consistent stop_point_ref all_stations (station d) (stop_point d))
    departures ->
  decode_all locals departures event_results = Ok result ->
  Forall (fun d => consistent stop_point_ref all_stations (station d) (stop_point d))
    result.
Proof.
  revert locals departures.
  induction event_results as [|er rest IH]; intros locals departures Hb Hds H.
  - by injection H as <-.
  - simpl in H. next_step H as v_step E_step. destruct v_step as [locals' d].
    destruct (decode_one_Ok _ _ _ _ Hb E_step) as [Hb' Hd].
    eapply IH; [exact Hb'| |exact H].
    apply Forall_app. split; [done|].
    destruct d as [d|]; simpl; [|done]. by repeat constructor; apply Hd.
Qed.


(** C4. Every departure the decoder returns names a station of the list
    it was given and a stop point of that station, and the stop point's
    reference is the requested one. *)
Theorem returned_departures_are_consistent tree_root departures d :
  get_departures_from_xml W stop_point_ref tree_root all_stations
    fallback_line_icon_colors SEV_lines_use_normal_line_icon_colors
    = Ok departures ->
  d ∈ departures ->
  station d ∈ all_stations /\
  stop_point d ∈ stop_points (station d) /\
  ref_of (stop_point d) = stop_point_ref.
Proof.
  intros H Hd. unfold get_departures_from_xml in H.
  eapply decode_all_consistent in H; [|done|constructor].
  by eapply Forall_forall in H.
Qed.


End decoder.

Lemma returned_departures_are_consistent_witness :
  station Ex.departure_2 ∈ Ex.all_stations /\
  stop_point Ex.departure_2 ∈ stop_points (station Ex.departure_2) /\
  stop_point_ref (stop_point Ex.departure_2) = "de:08212:1".
Proof.
  apply (returned_departures_are_consistent Ex.world "de:08212:1"
           Ex.all_stations Ex.fallback true
           (Ex.document [Ex.record_1; Ex.record_2])
           [Ex.departure_1; Ex.departure_2]).
  - vm_compute. reflexivity.
  - right. left.
Defined.



(** ** The line label *)

(** The last-word rules decide alone: what the SEV test assigned is
    assigned over. *)
Lemma assign_line_number_last_word words line_number :
  0 < length words ->
  assign_line_number words line_number =
    Some (if bool_decide (last_word words = "InterCityExpress") then
            "ICE" +:+ Str.join "" (take 1 (drop 1 words))
          else if bool_decide (last_word words = "InterCity") then
            "IC" +:+ Str.join "" (take 1 (drop 1 words))
          else if bool_decide (last_word words = "Flixbus") then
            "FLX" +:+ last_word words
          else last_word words).
Proof.
  intros Hlen. unfold assign_line_number.
  rewrite (bool_decide_eq_true_2 (0 < length words)) by done.
  rewrite join_chars. by repeat case_bool_decide.
Qed.

(** The label of a published line name never depends on its second word
    being "SEV". *)
Lemma line_number_of_split published_line_name line_number :
  exists w,
    assign_line_number (Str.split " " published_line_name) line_number = Some w /\
    (last_word (Str.split " " published_line_name) ∉
       ["InterCityExpress"; "InterCity"; "Flixbus"] ->
     w = last_word (Str.split " " published_line_name)).
Proof.
  rewrite assign_line_number_last_word by apply split_length.
  eexists; split; [done|]. intros Hnot.
  repeat case_bool_decide; try done; exfalso; apply Hnot; set_solver.
Qed.

Example line_number_bus :
  assign_line_number (Str.split " " "Bus 42") None = Some "42".
Proof. vm_compute. reflexivity. Qed.

Example line_number_ice :
  assign_line_number (Str.split " " "ICE 788 InterCityExpress") None = Some "ICE788".
Proof. vm_compute. reflexivity. Qed.

Example line_number_flixbus :
  assign_line_number (Str.split " " "FLX 17 Flixbus") None = Some "FLXFlixbus".
Proof. vm_compute. reflexivity. Qed.

Example format_platform_examples :
  format_platform "Gleis 3" = "3" /\ format_platform "7" = "7" /\
  format_platform "Bstg. 2 a" = "2 a".
Proof. vm_compute. done. Qed.

(** C2, where the code departs from it: for the published line name
    "Bus SEV 12" the label is "12", not "SEV12", alone and in a decoded
    departure. *)
Theorem sev_label_is_overwritten :
  assign_line_number (Str.split " " "Bus SEV 12") None = Some "12" /\
  (fun departures : list Departure => line_number <$> departures)
    <$> get_departures_from_xml Ex.world "de:08212:1"
          (Ex.document [Ex.record_sev]) Ex.all_stations Ex.fallback true
    = Ok ["12"].
Proof. split; vm_compute; reflexivity. Qed.

(** ** Window.refresh *)

Section refresh.

Context (W : World).

(** With no departure at all, [refresh] returns before it has touched a
    slot. *)
Lemma refresh_nil self : refresh W self [] = mkRefreshed self [] (Ok ()).
Proof. done. Qed.

(** X21. [clear] asks for a colour under a key that the checked configuration
    does not have: it blanks the entry and raises. *)
Lemma clear_without_colour cfg self index :
  colors cfg !! "DepartureEntry_darker" = None ->
  colors cfg !! "DepartureEntry_lighter" = None ->
  exists key,
    clear cfg self index =
      (mkDepartureEntry (Some EmptyString) EmptyString EmptyString
         (frame_background self) (labels_background self) Destroyed,
       Raise (KeyError key)).
Proof.
  intros Hd Hl. unfold clear, getitem.
  case_bool_decide; [rewrite Hd|rewrite Hl]; by eauto.
Qed.

(** An entry that has been cleared has lost its icon label: the next
    update of it raises. *)
Lemma update_after_clear cfg cfg' self index departure index' :
  exists e, (update W cfg' (clear cfg self index).1 departure index').2 = Raise e.
Proof.
  unfold update.
  destruct (getitem (colors cfg') _) as [background|e]; [|by eauto].
  unfold clear. destruct (getitem (colors cfg) _); simpl; by eauto.
Qed.

End refresh.

Section refresh_loops.

Context (W : World) (cfg : Config).

Lemma getitem_is_Some (d : gmap string string) key :
  is_Some (d !! key) -> exists v, getitem d key = Ok v.
Proof. intros [v Hv]. exists v. unfold getitem. by rewrite Hv. Qed.

Lemma update_alive e departure i :
  alive e -> has_update_colours cfg ->
  (update W cfg e departure i).2 = Ok ().
Proof.
  intros He [Hd Hl]. unfold update.
  destruct (getitem_is_Some (colors cfg)
              (if bool_decide (i mod 2 ≠ 0) then "departure_entry_darker"
               else "departure_entry_lighter")) as [v ->].
  { by case_bool_decide. }
  unfold alive in He. simpl. by destruct (line_icon_label e).
Qed.

Lemma clear_with_colours e i :
  has_clear_colours cfg -> (clear cfg e i).2 = Ok ().
Proof.
  intros [Hd Hl]. unfold clear.
  destruct (getitem_is_Some (colors cfg)
              (if bool_decide (i mod 2 ≠ 0) then "DepartureEntry_darker"
               else "DepartureEntry_lighter")) as [v ->]; [|done].
  by case_bool_decide.
Qed.

Lemma updated_nil i es : updated W cfg i es [] = es.
Proof. by destruct es. Qed.

Lemma updated_length i es ds : length (updated W cfg i es ds) = length es.
Proof.
  revert i ds; induction es as [|e es IH]; intros i [|d ds]; simpl; auto.
Qed.

(** The entries beyond the departures are not touched by the first loop. *)
Lemma updated_split i es ds :
  updated W cfg i es ds
    = updated W cfg i (take (min (length ds) (length es)) es) ds
      ++ drop (min (length ds) (length es)) es.
Proof.
  revert i ds; induction es as [|e es IH]; intros i [|d ds]; simpl; try done.
  f_equal. apply IH.
Qed.

(** The first loop, with [pre] the slots it has passed (the header among
    them) and [es] the entries still in front of it. *)
Lemma update_loop_updated n rest i last_i (pre : list Slot) es :
  length pre = i + 1 ->
  i + length es = n ->
  (rest ≠ [] -> es ≠ []) ->
  Forall alive es ->
  has_update_colours cfg ->
  update_loop W cfg n rest i last_i (pre ++ (Entry <$> es))
  = (pre ++ (Entry <$> updated W cfg i es rest),
     Ok (match rest with
         | [] => last_i
         | _ => Some (i + min (length rest) (length es) - 1)
         end)).
Proof.
  revert i last_i pre es.
  induction rest as [|d rest IH]; intros i last_i pre es Hpre Hn Hne Halive Hcol.
  - simpl. by rewrite updated_nil.
  - destruct es as [|e es]; [by destruct Hne|].
    apply Forall_cons in Halive as [He Halive].
    cbn [update_loop].
    rewrite lookup_app_r by lia.
    replace (i + 1 - length pre) with 0 by lia. cbn [fmap list_fmap lookup list_lookup].
    cbn [on_slot fst snd].
    rewrite (update_alive e d i He Hcol).
    replace (i + 1) with (length pre + 0) by lia.
    rewrite insert_app_r. cbn [insert list_insert].
    case_bool_decide as Hbreak.
    + assert (es = []) as -> by (apply nil_length_inv; simpl in Hn; lia).
      simpl. do 3 f_equal. lia.
    + replace (pre ++ Entry (update W cfg e d i).1 :: (Entry <$> es))
        with ((pre ++ [Entry (update W cfg e d i).1]) ++ (Entry <$> es))
        by (by rewrite <- app_assoc).
      rewrite IH; [|rewrite length_app; simpl; lia|simpl in Hn; lia| |done|done].
      * rewrite <- app_assoc. simpl. do 2 f_equal.
        destruct rest as [|d' rest]; [simpl; f_equal; lia|].
        simpl. f_equal. lia.
      * intros _ ->. simpl in Hn. lia.
Qed.

(** The second loop, where [clear] finds its colours. *)
Lemma clear_loop_cleared i es :
  (es ≠ [] -> has_clear_colours cfg) ->
  clear_loop cfg i (Entry <$> es) = (Entry <$> cleared cfg i es, Ok ()).
Proof.
  induction es as [|e es IH]; intros Hcol; [done|].
  assert (has_clear_colours cfg) as Hc by (by apply Hcol).
  cbn [fmap list_fmap clear_loop on_slot fst snd].
  rewrite (clear_with_colours e i Hc).
  fold (@fmap list _ _ _ Entry es). rewrite IH by done. done.
Qed.

End refresh_loops.

(** X20. With at least one departure and one slot, entries whose icon labels
    are alive and a configuration that has the colours asked for, [refresh]
    returns, the first slots show the earliest departures in time order, as
    many as there are departures and slots, and the slots after them are
    cleared. *)
Lemma refresh_with_departures (W : World) self es departures :
  Window.departure_entries self = Header :: (Entry <$> es) ->
  length es = Window.number_of_departure_entries self ->
  es ≠ [] ->
  Forall alive es ->
  has_update_colours (Window.config self) ->
  departures ≠ [] ->
  (length departures < length es -> has_clear_colours (Window.config self)) ->
  let m := min (length departures) (length es) in
  refresh W self departures =
    mkRefreshed
      (with_entries self
         (Header ::
            (Entry <$>
               updated W (Window.config self) 0 (take m es)
                 (sort_by sort_key departures)
               ++ cleared (Window.config self) (m - 1) (drop m es))))
      (sort_by sort_key departures) (Ok ()).
Proof.
  intros Hentries Hlen Hes Halive Hup Hne Hclear m.
  assert (length (sort_by sort_key departures) = length departures) as Hsl
    by (by rewrite sort_by_perm).
  assert (0 < length departures) as Hpos
    by (destruct departures; simpl; [done|lia]).
  assert (0 < length es) as Hpos' by (destruct es; simpl; [done|lia]).
  unfold refresh. rewrite bool_decide_eq_false_2 by lia.
  rewrite Hentries.
  change (Header :: (Entry <$> es)) with ([Header] ++ (Entry <$> es)).
  rewrite (update_loop_updated W (Window.config self) _ _ 0 None [Header] es);
    [|done|simpl; lia| |done|done].
  2: { intros _. done. }
  cbn [fst snd].
  assert (forall (x : nat),
            match sort_by sort_key departures with
            | [] => None
            | _ :: _ => Some x
            end = Some x) as ->.
  { intros x. destruct (sort_by sort_key departures); [simpl in Hsl; lia|done]. }
  cbn [mbind pyresult_bind read_local].
  rewrite Hsl. fold m.
  assert (0 < m) as Hm by (unfold m; lia).
  replace (0 + m - 1 + 2) with (S m) by lia.
  replace (0 + m - 1) with (m - 1) by lia.
  rewrite (updated_split W (Window.config self) 0 es), Hsl. fold m.
  assert (length (updated W (Window.config self) 0 (take m es)
                    (sort_by sort_key departures)) = m) as Hlm.
  { rewrite updated_length, length_take. unfold m. lia. }
  cbn [app take drop]. rewrite fmap_app.
  rewrite take_app_length', drop_app_length' by (by rewrite length_fmap).
  rewrite clear_loop_cleared.
  - cbn [fst snd]. by rewrite fmap_app.
  - intros Hrest. apply Hclear.
    destruct (decide (length departures < length es)) as [|Hge]; [done|].
    exfalso. apply Hrest. apply nil_length_inv.
    rewrite length_drop. unfold m. lia.
Qed.

(** Twelve departures on ten slots: the ten earliest are shown, in time
    order, and the call returns. *)
Example refresh_truncates :
  let r := refresh Ex.world Ex.window_hbf Ex.twelve in
  refreshed_outcome r = Ok () /\
  lines_shown (refreshed_window r)
    = Some <$> ["12"; "11"; "10"; "9"; "8"; "7"; "6"; "5"; "4"; "3"].
Proof. vm_compute. done. Qed.

(** Two departures on ten slots, with the checked configuration: the
    first unused slot is blanked, then [clear] raises; the call does not
    return, and the slots after it are not reached. *)
Example refresh_clear_raises :
  let r := refresh Ex.world Ex.window_hbf [Ex.dep_1005; Ex.dep_1002] in
  refreshed_outcome r = Raise (KeyError "DepartureEntry_darker") /\
  lines_shown (refreshed_window r)
    = [Some "2"; Some "1"; None; None; None; None; None; None; None; None].
Proof. vm_compute. done. Qed.

(** With the two colours of [clear] in the configuration, the same call
    on a window that shows ten lines clears the eight slots after the
    second. *)
Example refresh_clears_unused_slots :
  let shown := refreshed_window (refresh Ex.world Ex.window_hbf' Ex.twelve) in
  let r := refresh Ex.world shown [Ex.dep_1005; Ex.dep_1002] in
  refreshed_outcome r = Ok () /\
  lines_shown (refreshed_window r)
    = [Some "2"; Some "1"; None; None; None; None; None; None; None; None].
Proof. vm_compute. done. Qed.

(** The cycle after that cannot fill the cleared slots again: their icon
    labels are destroyed. *)
Example refresh_after_clear_raises :
  let shown := refreshed_window (refresh Ex.world Ex.window_hbf' Ex.twelve) in
  let fewer := refreshed_window (refresh Ex.world shown [Ex.dep_1005; Ex.dep_1002]) in
  refreshed_outcome (refresh Ex.world fewer Ex.twelve) = Raise TclError.
Proof. vm_compute. done. Qed.

(** C7, where the code departs from it: a window shows the ten earliest
    of twelve departures; the next cycle has no departure for it, and the
    window shows the same ten lines afterwards.  No slot is cleared, for
    any window, when the list is empty. *)
Theorem refresh_without_departures_clears_nothing :
  let shown := refreshed_window (refresh Ex.world Ex.window_hbf Ex.twelve) in
  lines_shown shown
    = Some <$> ["12"; "11"; "10"; "9"; "8"; "7"; "6"; "5"; "4"; "3"] /\
  refreshed_outcome (refresh Ex.world shown []) = Ok () /\
  lines_shown (refreshed_window (refresh Ex.world shown []))
    = Some <$> ["12"; "11"; "10"; "9"; "8"; "7"; "6"; "5"; "4"; "3"] /\
  (forall W self,
     Window.departure_entries (refreshed_window (refresh W self []))
       = Window.departure_entries self).
Proof.
  split; [vm_compute; reflexivity|].
  split; [vm_compute; reflexivity|].
  split; [vm_compute; reflexivity|].
  intros W self. by rewrite refresh_nil.
Qed.

(** ** update_departure_entries *)

Section cycle.

Context (W : World) (P : Program).

(** A failure of the decoding of one response is logged, and the loop goes
    on with the stop points that remain. *)
Lemma fetch_loop_catches_decoding stop_point rest all_departures trace response e :
  kvv_get W (stop_point_ref stop_point) 10 = Ok response ->
  departures_of_response W P stop_point response = Raise e ->
  fetch_loop W P (stop_point :: rest) all_departures trace
  = fetch_loop W P rest all_departures
      (trace ++ [Requested (stop_point_ref stop_point);
                 Logged "error in creating departures from xml tree" e]).
Proof. intros Hget Hdec. simpl. rewrite Hget, Hdec. by rewrite <- app_assoc. Qed.

(** A failure of the request itself leaves the loop: the stop points that
    remain are not asked for. *)
Lemma fetch_loop_transport_failure stop_point rest all_departures trace e :
  kvv_get W (stop_point_ref stop_point) 10 = Raise e ->
  fetch_loop W P (stop_point :: rest) all_departures trace
  = (trace ++ [Requested (stop_point_ref stop_point)], Raise e).
Proof. intros Hget. simpl. by rewrite Hget. Qed.

Lemma fetch_loop_never_rearms stop_points all_departures trace ms :
  Rearmed ms ∉ trace ->
  Rearmed ms ∉ (fetch_loop W P stop_points all_departures trace).1.
Proof.
  revert all_departures trace.
  induction stop_points as [|sp rest IH]; intros all_departures trace Hno; [done|].
  assert (Rearmed ms ∉ trace ++ [Requested (stop_point_ref sp)]) as Hno'.
  { intros [?|[?|[]%elem_of_nil]%elem_of_cons]%elem_of_app; done. }
  simpl. destruct (kvv_get W _ _) as [response|e]; simpl; [|done].
  destruct (departures_of_response W P sp response); apply IH; [done|].
  intros [?|[?|[]%elem_of_nil]%elem_of_cons]%elem_of_app; done.
Qed.

Lemma fetch_loop_raises stop_points all_departures trace stop_point e :
  stop_point ∈ stop_points ->
  kvv_get W (stop_point_ref stop_point) 10 = Raise e ->
  exists e', (fetch_loop W P stop_points all_departures trace).2 = Raise e'.
Proof.
  revert all_departures trace.
  induction stop_points as [|sp rest IH]; intros all_departures trace Hin Hget.
  - by apply elem_of_nil in Hin.
  - simpl. destruct (kvv_get W (stop_point_ref sp) 10) as [response|e0] eqn:E.
    + apply elem_of_cons in Hin as [->|Hin]; [congruence|].
      destruct (departures_of_response W P sp response); by apply IH.
    + by eauto.
Qed.

(** When the request fails for any stop point in use, the cycle ends with
    an exception, no window is refreshed and the cycle is not armed
    again. *)
Lemma transport_failure_ends_cycle stop_point e :
  stop_point ∈ all_stop_points P ->
  kvv_get W (stop_point_ref stop_point) 10 = Raise e ->
  exists e',
    cycle_outcome (update_departure_entries W P) = Raise e' /\
    cycle_windows (update_departure_entries W P) = windows P /\
    rearmed (update_departure_entries W P) = false.
Proof.
  intros Hin Hget. unfold update_departure_entries, rearmed.
  destruct (fetch_loop_raises _ [] [] _ _ Hin Hget) as [e' He'].
  rewrite He'. exists e'. simpl. split; [done|]. split; [done|].
  apply bool_decide_eq_false_2, fetch_loop_never_rearms, not_elem_of_nil.
Qed.

End cycle.

(** C1, where the code departs from it: stop point C is unreachable, and
    the cycle that asks for it first ends there.  The exception leaves
    [update_departure_entries]; A and B are not asked for, no window is
    refreshed, and the cycle is not armed again. *)
Theorem transport_failure_is_not_caught :
  all_stop_points Ex.program = [Ex.sp_C; Ex.sp_A; Ex.sp_B] /\
  update_departure_entries Ex.world Ex.program
    = mkCycle (windows Ex.program) [Requested "de:08212:3"] (Raise TransportError) /\
  rearmed (update_departure_entries Ex.world Ex.program) = false.
Proof. repeat split; vm_compute; reflexivity. Qed.

(** With the windows the other way round, A and B are asked for and decoded
    before the failure of C ends the cycle, and their departures are lost
    with it. *)
Example transport_failure_after_two_stop_points :
  cycle_trace (update_departure_entries Ex.world Ex.program')
    = [Requested "de:08212:1"; Requested "de:08212:2"; Requested "de:08212:3"] /\
  cycle_outcome (update_departure_entries Ex.world Ex.program')
    = Raise TransportError /\
  lines_shown <$> cycle_windows (update_departure_entries Ex.world Ex.program')
    = lines_shown <$> windows Ex.program'.
Proof. repeat split; vm_compute; reflexivity. Qed.

(** * Further properties *)

(** ** format_platform *)

Section platform.

Lemma append_cons c s t : String c s +:+ t = String c (s +:+ t).
Proof. done. Qed.

Lemma contains_cons c s sep :
  Str.contains (String c s) (String sep "") = Ascii.eqb sep c || Str.contains s (String sep "").
Proof.
  change (Str.contains (String c s) (String sep ""))
    with (Str.startswith (String c s) (String sep "")
          || Str.contains s (String sep "")).
  rewrite startswith_cons. simpl. by rewrite andb_true_r.
Qed.

(** A string without the separator is one word. *)
Lemma split_one_word sep s :
  Str.contains s (String sep "") = false -> Str.split sep s = [s].
Proof.
  induction s as [|c s IH]; [done|].
  rewrite contains_cons. intros [Hc Hs]%orb_false_iff.
  simpl. rewrite Ascii.eqb_sym, Hc, (IH Hs). done.
Qed.

(** The first separator ends the first word. *)
Lemma split_first_word sep w rest :
  Str.contains w (String sep "") = false ->
  Str.split sep (w +:+ String sep rest) = w :: Str.split sep rest.
Proof.
  induction w as [|c w IH].
  - intros _. change ("" +:+ String sep rest) with (String sep rest).
    simpl. by rewrite Ascii.eqb_refl.
  - rewrite contains_cons. intros [Hc Hw]%orb_false_iff.
    rewrite append_cons. simpl. rewrite Ascii.eqb_sym, Hc, (IH Hw). done.
Qed.

(** Joining the words of a split with the separator gives the string
    back. *)
Lemma join_split sep s : Str.join (String sep "") (Str.split sep s) = s.
Proof.
  induction s as [|c s IH]; [done|]. simpl.
  destruct (split_cons sep s) as (w & ws & E). rewrite E in *.
  destruct (Ascii.eqb c sep) eqn:Ec.
  - apply Ascii.eqb_eq in Ec as ->. rewrite join_cons_cons, IH. done.
  - destruct ws as [|w' ws].
    + simpl in *. by rewrite IH.
    + rewrite join_cons_cons in *. rewrite append_cons, IH. done.
Qed.

(** X1. A platform text without a space comes back as it is; from a text
    with a space, all up to and with the first space is taken away and the
    rest comes back unchanged, further spaces included. *)
Theorem format_platform_strips_first_word :
  (forall platform,
     Str.contains platform " " = false -> format_platform platform = platform) /\
  (forall w rest,
     Str.contains w " " = false -> format_platform (w +:+ " " +:+ rest) = rest).
Proof.
  split.
  - intros platform H. unfold format_platform.
    rewrite (split_one_word " " platform H). done.
  - intros w rest H. unfold format_platform.
    change (" " +:+ rest) with (String " " rest).
    rewrite (split_first_word " " w rest H).
    destruct (split_cons " " rest) as (w' & ws & E).
    rewrite bool_decide_eq_true_2 by (rewrite E; simpl; lia).
    simpl. apply (join_split " ").
Qed.

End platform.

Lemma format_platform_strips_first_word_witness :
  format_platform "7a" = "7a" /\ format_platform "Gleis 3 Nord" = "3 Nord".
Proof.
  split.
  - apply format_platform_strips_first_word. reflexivity.
  - apply (proj2 format_platform_strips_first_word "Gleis" "3 Nord"). reflexivity.
Defined.

(** ** get_line_color, further *)

Section line_color_more.

Context (W : World).

(** X2. With a table that can be read, [get_line_color] returns, and what
    it returns is one of the two fixed pairs, the fallback pair, or the
    pair of a row of the table whose operator name contains "kvv" and whose
    line name is the line name asked for, or, with the flag set and a name
    that starts with "SEV", that name without its first three
    characters. *)
Theorem get_line_color_origin line_name filename fallback_colors sev df :
  read_csv W filename = Ok df ->
  exists pair,
    get_line_color W line_name filename fallback_colors sev = Ok pair /\
    (pair = ("#EC0016", "#FFFFFF") \/
     pair = ("#97d700", "#FFFFFF") \/
     pair = fallback_colors \/
     exists row,
       row ∈ df /\ operator_is_kvv row = true /\
       pair = (backgroundColor row, textColor row) /\
       (lineName row = line_name \/
        sev = true /\ Str.startswith line_name "SEV" = true /\
        lineName row = Str.drop 3 line_name)).
Proof.
  intros Hread. unfold get_line_color.
  destruct (_ || _); [by eauto|].
  destruct (Str.startswith line_name "FLX"); [by eauto 6|].
  rewrite Hread. cbn [mbind pyresult_bind].
  set (kvv := filter (fun row => operator_is_kvv row = true) df).
  destruct (filter (fun row => lineName row = line_name) kvv)
    as [|row rows] eqn:Edirect.
  - destruct (sev && bool_decide (Str.take 3 line_name = "SEV")) eqn:Eflag;
      [|by eauto 6].
    apply andb_true_iff in Eflag as [-> Hsev%bool_decide_eq_true_1].
    apply (take_startswith line_name "SEV") in Hsev.
    destruct (filter (fun row => lineName row = Str.drop 3 line_name) kvv)
      as [|row rows] eqn:Eretry; [by eauto 6|].
    assert (row ∈ filter (fun row => lineName row = Str.drop 3 line_name) kvv)
      as [Hname [Hkvv Hin]%list_elem_of_filter]%list_elem_of_filter
      by (rewrite Eretry; left).
    eexists; split; [done|]. do 3 right. exists row. by eauto 10.
  - assert (row ∈ filter (fun row => lineName row = line_name) kvv)
      as [Hname [Hkvv Hin]%list_elem_of_filter]%list_elem_of_filter
      by (rewrite Edirect; left).
    eexists; split; [done|]. do 3 right. exists row. by eauto 10.
Qed.

(** X3. For a line name outside the overrides, what the reading of the
    table raises leaves [get_line_color]: the [except IndexError] around
    the search does not cover it, and no fallback pair is returned. *)
Theorem get_line_color_unreadable_table line_name filename fallback_colors sev e :
  Str.startswith line_name "IC" = false ->
  Str.startswith line_name "FLX" = false ->
  read_csv W filename = Raise e ->
  get_line_color W line_name filename fallback_colors sev = Raise e.
Proof.
  intros HIC HFLX Hread. unfold get_line_color.
  assert (Str.startswith line_name "ICE" = false) as ->.
  { destruct (Str.startswith line_name "ICE") eqn:E; [|done].
    apply (startswith_app _ "IC" "E") in E. congruence. }
  by rewrite HIC, HFLX, Hread.
Qed.

End line_color_more.

Lemma get_line_color_origin_witness :
  exists pair,
    get_line_color Ex.world "12" "line-colors.csv" Ex.fallback false = Ok pair /\
    (pair = ("#EC0016", "#FFFFFF") \/
     pair = ("#97d700", "#FFFFFF") \/
     pair = Ex.fallback \/
     exists row,
       row ∈ Ex.table /\ operator_is_kvv row = true /\
       pair = (backgroundColor row, textColor row) /\
       (lineName row = "12" \/
        false = true /\ Str.startswith "12" "SEV" = true /\
        lineName row = Str.drop 3 "12")).
Proof.
  apply (get_line_color_origin Ex.world "12" "line-colors.csv" Ex.fallback false
           Ex.table).
  reflexivity.
Defined.

Lemma get_line_color_unreadable_table_witness :
  get_line_color Ex.world "12" "no such file" Ex.fallback true = Raise OSError.
Proof.
  apply (get_line_color_unreadable_table Ex.world "12" "no such file");
    reflexivity.
Defined.

Lemma get_line_color_direct_witness :
  get_line_color Ex.world "12" "line-colors.csv" Ex.fallback true
    = Ok ("#00FF00", "#000000").
Proof.
  apply (get_line_color_direct Ex.world "12" "line-colors.csv" Ex.fallback true
           Ex.table (mkColorRow (Some "kvv-bus") "12" "#00FF00" "#000000")
           [mkColorRow (Some "Kvv") "12" "#FF0000" "#FFFFFF"]);
    reflexivity.
Defined.

(** ** The decoder, further *)

Section decoder_more.

Context (W : World) (stop_point_ref : string) (all_stations : list Station).
Context (fallback_line_icon_colors : string * string).
Context (SEV_lines_use_normal_line_icon_colors : bool).

Local Abbreviation decode_one :=
  (decode_event_result W stop_point_ref all_stations
     fallback_line_icon_colors SEV_lines_use_normal_line_icon_colors).
Local Abbreviation decode_all :=
  (decode_event_results W stop_point_ref all_stations
     fallback_line_icon_colors SEV_lines_use_normal_line_icon_colors).
Local Abbreviation decoded :=
  (decoded_from W fallback_line_icon_colors SEV_lines_use_normal_line_icon_colors).

(** *** The scan, by its result *)

Lemma scan_station_last station stop_points'
    (bound : option Station * option StopPoint) :
  foldl (fun bound stop_point =>
           if bool_decide (ref_of stop_point = stop_point_ref)
           then (Some station, Some stop_point)
           else bound)
        bound stop_points'
  = match last (filter (fun p => ref_of p = stop_point_ref) stop_points') with
    | Some p => (Some station, Some p)
    | None => bound
    end.
Proof.
  revert bound. induction stop_points' as [|p ps IH]; intros bound; [done|].
  simpl. rewrite IH, filter_cons. case_bool_decide as Hp.
  - rewrite decide_True by done. rewrite last_cons.
    by destruct (last (filter _ ps)).
  - by rewrite decide_False by done.
Qed.

(** The scan leaves the last match, and what was bound before where there
    is no match. *)
Lemma scan_last (bound : option Station * option StopPoint) :
  scan_stop_points stop_point_ref all_stations bound
  = match last (scan_matches stop_point_ref all_stations) with
    | Some (s, p) => (Some s, Some p)
    | None => bound
    end.
Proof.
  unfold scan_stop_points, scan_matches. revert bound.
  induction all_stations as [|s l IH]; intros bound; [done|].
  cbn [foldl mbind list_bind]. rewrite IH, scan_station_last.
  fold (@mbind list _ _ _ (fun s => (fun p => (s, p)) <$>
          filter (fun p => ref_of p = stop_point_ref) (stop_points s)) l).
  rewrite last_app.
  destruct (last (l ≫= _)) as [[s' p']|]; [done|].
  rewrite fmap_last. by destruct (last (filter _ (stop_points s))).
Qed.

(** *** One record, by what it gives *)

Lemma words_of_length event words : words_of event = Ok words -> 0 < length words.
Proof.
  unfold words_of. intros H. next_step H as v_name E_name.
  destruct v_name as [published|]; [|done].
  injection H as <-. apply split_length.
Qed.

(** What a record that decodes has given: nothing when it is not of the
    requested stop point, and else a departure with the record's fields and
    the last match of the scan; [known] says that what is bound already is
    that match. *)
Lemma decode_one_fields locals event_result locals' departure :
  let known locals :=
    forall s p, local_departure_station locals = Some s ->
      local_departure_stop_point locals = Some p ->
      last (scan_matches stop_point_ref all_stations) = Some (s, p) in
  known locals ->
  decode_one locals event_result = Ok (locals', departure) ->
  known locals' /\
  match departure with
  | None => is_requested stop_point_ref event_result = Ok false
  | Some d =>
      is_requested stop_point_ref event_result = Ok true /\
      decoded event_result d /\
      last (scan_matches stop_point_ref all_stations)
        = Some (station d, stop_point d)
  end.
Proof.
  intros known Hknown H. unfold decode_event_result in H.
  next_step H as v_requested E_requested. destruct v_requested; simpl in H.
  2: { by injection H as <- <-. }
  next_step H as v_planned_time E_planned_time.
  next_step H as v_words E_words.
  next_step H as v_destination E_destination.
  next_step H as v_platform E_platform.
  next_step H as v_mode E_mode.
  next_step H as v_line_number E_line_number.
  next_step H as v_colors E_colors.
  next_step H as v_departure_station E_departure_station.
  next_step H as v_departure_stop_point E_departure_stop_point.
  injection H as <- <-.
  assert (known (mkLocals (assign_line_number v_words (local_line_number locals))
                   (scan_stop_points stop_point_ref all_stations
                      (local_departure_station locals,
                       local_departure_stop_point locals)).1
                   (scan_stop_points stop_point_ref all_stations
                      (local_departure_station locals,
                       local_departure_stop_point locals)).2)) as Hknown'.
  { unfold known. simpl. rewrite scan_last.
    destruct (last (scan_matches _ _)) as [[s p]|] eqn:El; simpl.
    - by intros s' p' [= <-] [= <-].
    - intros s' p' Hs Hp. specialize (Hknown s' p' Hs Hp). done. }
  split; [done|]. split; [done|]. split.
  - unfold decoded_from. simpl.
    pose proof (words_of_length _ _ E_words) as Hlen.
    rewrite (assign_line_number_last_word _ _ Hlen) in E_line_number.
    injection E_line_number as E_line_number.
    repeat split; try done.
    + exists v_words. split; [done|].
      by rewrite (assign_line_number_last_word _ _ Hlen), E_line_number.
    + by destruct v_colors.
  - simpl. apply Hknown'; simpl.
    + destruct (scan_stop_points _ _ _).1; [|done].
      by injection E_departure_station as ->.
    + destruct (scan_stop_points _ _ _).2; [|done].
      by injection E_departure_stop_point as ->.
Qed.

(** *** The loop, by what it gives *)

Lemma decode_all_fields event_results locals departures result :
  (forall s p, local_departure_station locals = Some s ->
     local_departure_stop_point locals = Some p ->
     last (scan_matches stop_point_ref all_stations) = Some (s, p)) ->
  decode_all locals departures event_results = Ok result ->
  exists new,
    result = departures ++ new /\
    Forall2 (fun er d =>
               decoded er d /\
               last (scan_matches stop_point_ref all_stations)
                 = Some (station d, stop_point d))
      (filter (fun er => is_requested stop_point_ref er = Ok true) event_results)
      new.
Proof.
  revert locals departures.
  induction event_results as [|er rest IH]; intros locals departures Hknown H.
  - injection H as <-. exists []. by rewrite app_nil_r.
  - simpl in H. next_step H as v_step E_step. destruct v_step as [locals' d].
    destruct (decode_one_fields _ _ _ _ Hknown E_step) as [Hknown' Hd].
    destruct (IH _ _ Hknown' H) as (new & -> & Hnew).
    rewrite filter_cons. destruct d as [d|]; simpl in *.
    + destruct Hd as (Hreq & Hfields & Hlast).
      rewrite decide_True by done.
      exists (d :: new). rewrite <- app_assoc. split; [done|].
      by constructor.
    + rewrite decide_False by (rewrite Hd; done).
      exists new. by rewrite app_nil_r.
Qed.

(** X5. When the decoder returns, it returns one departure for each
    record of the requested stop point, in the order of the document, and
    each carries what its record holds: the planned time, the estimated
    time or none, the label made of the published line name, destination,
    platform or none, mode, and the colours of the label. *)
Theorem decoder_returns_the_requested_records tree_root departures :
  get_departures_from_xml W stop_point_ref tree_root all_stations
    fallback_line_icon_colors SEV_lines_use_normal_line_icon_colors
    = Ok departures ->
  Forall2 decoded (requested_records stop_point_ref tree_root) departures.
Proof.
  intros H. unfold get_departures_from_xml in H.
  apply decode_all_fields in H as (new & -> & Hnew); [|done].
  simpl. unfold requested_records.
  eapply Forall2_impl; [exact Hnew|]. by intros er d [? _].
Qed.

(** X6. All departures of one call have one station and one stop point:
    the last station of the list, and the last of its stop points, with
    the requested reference.  A stop point that stands under two stations
    gives all its departures to the later one. *)
Theorem decoder_binds_the_last_match tree_root departures d :
  get_departures_from_xml W stop_point_ref tree_root all_stations
    fallback_line_icon_colors SEV_lines_use_normal_line_icon_colors
    = Ok departures ->
  d ∈ departures ->
  last (scan_matches stop_point_ref all_stations) = Some (station d, stop_point d).
Proof.
  intros H Hd. unfold get_departures_from_xml in H.
  apply decode_all_fields in H as (new & -> & Hnew); [|done].
  simpl in Hd.
  apply (Forall2_Forall_r _ (fun d => last (scan_matches stop_point_ref all_stations)
                                      = Some (station d, stop_point d))) in Hnew.
  - by eapply Forall_forall in Hnew.
  - apply Forall_forall. by intros er _ d' [_ ?].
Qed.

(** X7. A document without a record of the requested stop point decodes to
    no departure and raises nothing, also when no station has the stop
    point. *)
Theorem decoder_without_requested_record tree_root :
  Forall (fun er => is_requested stop_point_ref er = Ok false)
    (ET.findall_desc "StopEventResult" tree_root) ->
  get_departures_from_xml W stop_point_ref tree_root all_stations
    fallback_line_icon_colors SEV_lines_use_normal_line_icon_colors
    = Ok [].
Proof.
  unfold get_departures_from_xml. generalize unbound.
  induction 1 as [|er rest Her Hrest IH]; [done|].
  simpl. by rewrite (decode_skipped W stop_point_ref all_stations _ _ _ _ Her).
Qed.

End decoder_more.

(** ** get_all_used_stoppoints, further *)

Section first_occurrences_more.

Context {A : Type} `{EqDecision A}.

Lemma first_occurrences_app (l l' : list A) :
  first_occurrences (l ++ l')
    = first_occurrences l ++ filter (fun y => y ∉ l) (first_occurrences l').
Proof.
  induction l as [|x l IH]; simpl.
  - symmetry. apply filter_all. intros y. apply not_elem_of_nil.
  - rewrite IH, filter_app, list_filter_filter. do 2 f_equal.
    apply list_filter_iff. intros y. rewrite not_elem_of_cons. naive_solver.
Qed.

Lemma filter_none (P : A -> Prop) `{!forall x, Decision (P x)} (l : list A) :
  (forall x, x ∈ l -> ~ P x) -> filter P l = [].
Proof.
  induction l as [|x l IH]; intros HP; [done|].
  rewrite filter_cons_False by (apply HP; left).
  apply IH. intros y Hy. apply HP. by right.
Qed.

(** Values that have been seen before add nothing, wherever they come. *)
Lemma first_occurrences_seen (l seen l' : list A) :
  seen ⊆ l ->
  first_occurrences (l ++ seen ++ l') = first_occurrences (l ++ l').
Proof.
  intros Hsub. rewrite !first_occurrences_app, filter_app. f_equal.
  rewrite (filter_none _ (first_occurrences seen)).
  - simpl. rewrite list_filter_filter. apply list_filter_iff.
    intros y. split; [naive_solver|]. intros Hy. split; [done|].
    intros Hs. apply Hy. by apply Hsub.
  - intros y Hy Hn. apply (proj1 (elem_of_first_occurrences _ _)) in Hy.
    apply Hn. by apply Hsub.
Qed.

End first_occurrences_more.

(** X8. A window whose station's stop points are all stop points of
    stations of earlier windows (so a further window on a station that is
    in use already) changes nothing in the list of stop points to ask
    for. *)
Theorem get_all_used_stoppoints_shared_station earlier window later :
  stop_points (Window.station window) ⊆ used_stop_points earlier ->
  get_all_used_stoppoints (earlier ++ window :: later)
    = get_all_used_stoppoints (earlier ++ later).
Proof.
  intros Hsub. rewrite !get_all_used_stoppoints_eq.
  unfold used_stop_points in *. rewrite !bind_app, bind_cons.
  by apply first_occurrences_seen.
Qed.

Lemma get_all_used_stoppoints_shared_station_witness :
  get_all_used_stoppoints ([Ex.window_hbf; Ex.window_markt] ++ Ex.window_hbf' :: [])
    = get_all_used_stoppoints ([Ex.window_hbf; Ex.window_markt] ++ []).
Proof.
  apply (get_all_used_stoppoints_shared_station
           [Ex.window_hbf; Ex.window_markt] Ex.window_hbf' []).
  vm_compute. intros sp Hsp.
  apply elem_of_cons in Hsp as [->|Hsp]; [left|].
  apply elem_of_cons in Hsp as [->|Hsp]; [right; left|].
  by apply elem_of_nil in Hsp.
Defined.

(** ** create_stations *)

Section stations.

Context {V : Type} (float : V -> pyresult spec_float).

Lemma getitem_of_Ok {B} (d : option B) key v :
  getitem_of d key = Ok v -> d = Some v.
Proof. destruct d; [by intros [= ->]|done]. Qed.

Lemma create_stop_point_from stop sp :
  create_stop_point stop = Ok sp -> stop_point_from stop sp.
Proof.
  unfold create_stop_point, getitem. intros H.
  destruct (stop !! "stop_point_ref") as [r|] eqn:E; [|done].
  by injection H as <-.
Qed.

Lemma create_stop_points_from stops acc result :
  create_stop_points stops acc = Ok result ->
  exists new, result = acc ++ new /\ Forall2 stop_point_from stops new.
Proof.
  revert acc. induction stops as [|stop rest IH]; intros acc H.
  - injection H as <-. exists []. by rewrite app_nil_r.
  - simpl in H. next_step H as v_created E_created.
    apply IH in H as (new & -> & Hnew).
    exists (v_created :: new). rewrite <- app_assoc. split; [done|].
    constructor; [by apply create_stop_point_from|done].
Qed.

Lemma create_station_from station_name entry s :
  create_station float station_name entry = Ok s ->
  station_from float (station_name, entry) s.
Proof.
  unfold create_station. intros H.
  next_step H as v_stops E_stops. next_step H as v_stop_points E_stop_points.
  next_step H as v_raw E_raw. next_step H as v_lead E_lead.
  injection H as <-.
  apply create_stop_points_from in E_stop_points as (new & -> & Hnew).
  unfold station_from. simpl. split; [done|]. split.
  - exists v_raw. split; [|done]. by apply getitem_of_Ok in E_raw.
  - exists v_stops. split; [|done]. by apply getitem_of_Ok in E_stops.
Qed.

Lemma create_stations_loop_from stations_config acc result :
  create_stations_loop float stations_config acc = Ok result ->
  exists new, result = acc ++ new /\
    Forall2 (station_from float) stations_config new.
Proof.
  revert acc. induction stations_config as [|[station_name entry] rest IH];
    intros acc H.
  - injection H as <-. exists []. by rewrite app_nil_r.
  - simpl in H. next_step H as v_created E_created.
    apply IH in H as (new & -> & Hnew).
    exists (v_created :: new). rewrite <- app_assoc. split; [done|].
    constructor; [by apply create_station_from|done].
Qed.

(** X9. When [create_stations] returns, it returns one station for each
    entry of the configuration, in the order of the entries: the station
    has the entry's name, the float of its lead time, and one stop point
    for each configured stop, in order, with the stop's reference and with
    its prefix and suffix where the stop has them and none where not. *)
Theorem create_stations_follows_the_configuration stations_config stations :
  create_stations float stations_config = Ok stations ->
  Forall2 (station_from float) stations_config stations.
Proof.
  intros H. apply create_stations_loop_from in H as (new & -> & Hnew). done.
Qed.

(** *** The check of the configuration and the construction *)

Lemma check_stop_Ok stop bound :
  (check_stop stop bound).2 = Ok () ->
  exists v, getitem stop "stop_point_ref" = Ok v.
Proof.
  unfold check_stop. destruct (getitem stop "stop_point_ref") as [v|e]; [|done].
  by exists v.
Qed.

Lemma check_stops_create stops bound acc :
  (check_stops stops bound).2 = Ok () ->
  exists result, create_stop_points stops acc = Ok result.
Proof.
  revert bound acc.
  induction stops as [|stop rest IH]; intros bound acc H; [by eexists|].
  simpl in H.
  destruct (check_stop stop bound) as [bound' [[]|e]] eqn:E_stop; [|done].
  assert ((check_stop stop bound).2 = Ok ()) as E_ok by (by rewrite E_stop).
  apply check_stop_Ok in E_ok as [v_ref E_ref].
  simpl. unfold create_stop_point. rewrite E_ref. cbn [mbind pyresult_bind].
  by apply (IH bound').
Qed.

Lemma check_station_create station_name entry bound :
  (check_station float entry bound).2 = Ok () ->
  exists s, create_station float station_name entry = Ok s.
Proof.
  unfold check_station, create_station. intros H.
  destruct (getitem_of (config_lead_time_minutes entry) "lead_time_minutes")
    as [v_raw|e] eqn:E_raw; [|done].
  cbn [mbind pyresult_bind] in H.
  destruct (float v_raw) as [v_float|e] eqn:E_float; [|done].
  cbn [mbind pyresult_bind] in H.
  destruct (getitem_of (config_stops entry) "stops") as [v_stops|e]; [|done].
  cbn [mbind pyresult_bind].
  destruct (check_stops_create v_stops bound [] H) as [sps ->].
  cbn [mbind pyresult_bind]. rewrite E_float. by eexists.
Qed.

Lemma check_stations_loop_create stations_config bound acc :
  (check_stations_loop float stations_config bound).2 = Ok () ->
  exists result, create_stations_loop float stations_config acc = Ok result.
Proof.
  revert bound acc. induction stations_config as [|[station_name entry] rest IH];
    intros bound acc H; [by eexists|].
  simpl in H.
  destruct (check_station float entry bound) as [bound' [[]|e]] eqn:E_station;
    [|done].
  assert ((check_station float entry bound).2 = Ok ()) as E_ok
    by (by rewrite E_station).
  simpl.
  destruct (check_station_create station_name entry bound E_ok) as [s ->].
  cbn [mbind pyresult_bind]. by apply (IH bound').
Qed.

Lemma quit_on_error_Passed r : quit_on_error r = Passed -> r = Ok ().
Proof. destruct r as [[]|[]]; done. Qed.

Lemma quit_on_station_error_Passed bound r :
  quit_on_station_error bound r = Passed -> r = Ok ().
Proof. destruct r as [[]|[]], bound; done. Qed.

(** X10. A stations section that [_check_and_get_stations] accepts is one
    from which [create_stations] builds its stations without raising. *)
Theorem checked_stations_can_be_created stations_config :
  check_and_get_stations float (Some stations_config) = Passed ->
  exists stations, create_stations float stations_config = Ok stations.
Proof.
  unfold check_and_get_stations. simpl. intros H%quit_on_station_error_Passed.
  by apply (check_stations_loop_create stations_config false).
Qed.

(** X11. A stop without "stop_point_ref" anywhere in the configuration
    makes [create_stations] raise; no list of stations comes back. *)
Theorem create_stations_needs_the_reference stations_config station_name entry stops stop :
  (station_name, entry) ∈ stations_config ->
  config_stops entry = Some stops ->
  stop ∈ stops ->
  stop !! "stop_point_ref" = None ->
  exists e, create_stations float stations_config = Raise e.
Proof.
  intros Hin Hstops Hstop Hnone.
  destruct (create_stations float stations_config) as [stations|e] eqn:E;
    [|by eauto].
  apply create_stations_loop_from in E as (new & _ & Hnew).
  apply list_elem_of_lookup in Hin as [i Hi].
  destruct (Forall2_lookup_l _ _ _ _ _ Hnew Hi) as (s & _ & _ & _ & Hs).
  destruct Hs as (stops' & Hstops' & Hsps). simpl in Hstops'.
  rewrite Hstops in Hstops'. injection Hstops' as <-.
  apply list_elem_of_lookup in Hstop as [j Hj].
  destruct (Forall2_lookup_l _ _ _ _ _ Hsps Hj) as (sp & _ & Href & _).
  congruence.
Qed.

(** Stations without stops pass the check and leave
    [try_optional_argument] unbound. *)
Lemma check_stations_loop_without_stops earlier later :
  Forall (fun item : string * StationConfig V =>
            exists raw v,
              config_lead_time_minutes item.2 = Some raw /\
              float raw = Ok v /\
              config_stops item.2 = Some []) earlier ->
  check_stations_loop float (earlier ++ later) false
    = check_stations_loop float later false.
Proof.
  induction 1 as [|[station_name entry] earlier (raw & v & E_raw & E_float & E_stops) _ IH];
    [done|].
  simpl in *. unfold check_station.
  rewrite E_raw. cbn [getitem_of mbind pyresult_bind].
  rewrite E_float. cbn [mbind pyresult_bind].
  rewrite E_stops. cbn [getitem_of check_stops]. done.
Qed.

(** X22. A lead time that [float] rejects, in a station that no stop came
    before, does not end in [quit()]: the handler of the [ValueError] reads
    [try_optional_argument], which no loop has bound yet, and the check is
    left by an [UnboundLocalError]. *)
Theorem unreadable_lead_time_breaks_the_handler earlier station_name raw stops later :
  Forall (fun item : string * StationConfig V =>
            exists raw' v,
              config_lead_time_minutes item.2 = Some raw' /\
              float raw' = Ok v /\
              config_stops item.2 = Some []) earlier ->
  float raw = Raise ValueError ->
  check_and_get_stations float
    (Some (earlier ++ (station_name, mkStationConfig (Some raw) stops) :: later))
  = Uncaught UnboundLocalError.
Proof.
  intros Hearlier E_float. unfold check_and_get_stations.
  cbn [getitem_of]. rewrite check_stations_loop_without_stops by done.
  simpl. unfold check_station.
  cbn [getitem_of config_lead_time_minutes mbind pyresult_bind].
  rewrite E_float. done.
Qed.

End stations.

Lemma create_stations_follows_the_configuration_witness :
  Forall2 (station_from Ex2.float) Ex2.stations_config Ex.all_stations.
Proof.
  apply (create_stations_follows_the_configuration Ex2.float).
  vm_compute. reflexivity.
Defined.

Lemma checked_stations_can_be_created_witness :
  exists stations, create_stations Ex2.float Ex2.stations_config = Ok stations.
Proof.
  apply (checked_stations_can_be_created Ex2.float).
  vm_compute. reflexivity.
Defined.

Lemma unreadable_lead_time_breaks_the_handler_witness :
  check_and_get_stations Ex2.float
    (Some ([("Depot", mkStationConfig (Some "5") (Some []))]
           ++ ("Hauptbahnhof", mkStationConfig (Some "five") (Some [Ex2.stop "de:08212:1" []]))
           :: Ex2.stations_config))
  = Uncaught UnboundLocalError.
Proof.
  apply (unreadable_lead_time_breaks_the_handler Ex2.float
           [("Depot", mkStationConfig (Some "5") (Some []))]).
  - constructor; [|constructor]. exists "5", (Ex.lead 5). done.
  - reflexivity.
Defined.

(** Once a stop has been looked at, the same lead time ends in [quit()]. *)
Example unreadable_lead_time_after_a_stop :
  check_and_get_stations Ex2.float
    (Some (Ex2.stations_config ++ [("Zoo", mkStationConfig (Some "five") (Some []))]))
  = Quit ValueError.
Proof. vm_compute. reflexivity. Qed.

(** A mistyped optional key ends in [quit()], a missing section too. *)
Example mistyped_key_quits :
  check_and_get_stations Ex2.float
    (Some [("Zoo", mkStationConfig (Some "5")
                     (Some [Ex2.stop "de:08212:9" [("sufix", "a")]]))])
  = Quit ValueError /\
  check_and_get_stations Ex2.float None = Quit (KeyError "stations") /\
  check_and_get_stations Ex2.float (Some Ex2.stations_config_without_reference)
  = Quit (KeyError "stop_point_ref").
Proof. vm_compute. done. Qed.

Lemma create_stations_needs_the_reference_witness :
  exists e,
    create_stations Ex2.float Ex2.stations_config_without_reference = Raise e.
Proof.
  apply (create_stations_needs_the_reference Ex2.float
           Ex2.stations_config_without_reference "Hauptbahnhof"
           (mkStationConfig (Some "5")
              (Some [Ex2.stop "de:08212:1" []; Ex2.stop_without_reference]))
           [Ex2.stop "de:08212:1" []; Ex2.stop_without_reference]
           Ex2.stop_without_reference).
  - left.
  - reflexivity.
  - right. left.
  - vm_compute. reflexivity.
Defined.

Lemma decoder_returns_the_requested_records_witness :
  Forall2 (decoded_from Ex.world Ex.fallback true)
    (requested_records "de:08212:1" (Ex.document [Ex.record_1; Ex.record_2]))
    [Ex.departure_1; Ex.departure_2].
Proof.
  apply (decoder_returns_the_requested_records Ex.world "de:08212:1"
           Ex.all_stations Ex.fallback true).
  vm_compute. reflexivity.
Defined.

Lemma decoder_binds_the_last_match_witness :
  last (scan_matches "de:08212:1" [Ex.hbf; Ex.zoo])
    = Some (station Ex2.departure_1_zoo, stop_point Ex2.departure_1_zoo).
Proof.
  apply (decoder_binds_the_last_match Ex.world "de:08212:1" [Ex.hbf; Ex.zoo]
           Ex.fallback true (Ex.document [Ex.record_1])
           [Ex2.departure_1_zoo]).
  - vm_compute. reflexivity.
  - left.
Defined.

Lemma decoder_without_requested_record_witness :
  get_departures_from_xml Ex.world "de:08212:9"
    (Ex.document [Ex.record_1; Ex.record_2]) [] Ex.fallback true
    = Ok [].
Proof.
  apply (decoder_without_requested_record Ex.world "de:08212:9" [] Ex.fallback true).
  vm_compute. repeat constructor.
Defined.

(** ** Window.create_windows *)

Section windows.

Context (new : WindowConfig -> Station -> pyresult Window.t).

Lemma read_local_Ok {A} (v : option A) a : read_local v = Ok a -> v = Some a.
Proof. destruct v; [by intros [= ->]|done]. Qed.

(** The inner loop, by its result. *)
Lemma find_station_first_or_last all_stations window_config wanted station :
  config_station window_config = Some wanted ->
  find_station all_stations window_config station
  = Ok match filter (fun s => name s = wanted) all_stations with
       | s :: _ => Some s
       | [] => match last all_stations with
               | Some s => Some s
               | None => station
               end
       end.
Proof.
  intros Hwanted. revert station.
  induction all_stations as [|s rest IH]; intros station; [done|].
  simpl. rewrite Hwanted. cbn [getitem_of mbind pyresult_bind].
  rewrite filter_cons. case_bool_decide as Hname.
  - by rewrite decide_True by done.
  - rewrite decide_False by done. rewrite IH, last_cons.
    by destruct (filter _ rest), (last rest).
Qed.

Lemma find_station_station_for all_stations window_config wanted station :
  all_stations ≠ [] ->
  config_station window_config = Some wanted ->
  find_station all_stations window_config station
    = Ok (station_for all_stations wanted).
Proof.
  intros Hne Hwanted.
  rewrite (find_station_first_or_last _ _ wanted) by done.
  unfold station_for. destruct (filter _ all_stations); [|done].
  destruct (last all_stations) eqn:El; [done|].
  by apply last_None in El.
Qed.

Lemma find_station_no_key all_stations window_config station :
  all_stations ≠ [] ->
  config_station window_config = None ->
  find_station all_stations window_config station = Raise (KeyError "station").
Proof. intros Hne Hnone. destruct all_stations; [done|]. simpl. by rewrite Hnone. Qed.

Lemma create_windows_loop_bound windows_config all_stations station acc result :
  all_stations ≠ [] ->
  (forall window_config s w, new window_config s = Ok w -> Window.station w = s) ->
  create_windows_loop new windows_config all_stations station acc = Ok result ->
  exists windows,
    result = acc ++ windows /\
    Forall2 (fun window_config w =>
               exists wanted,
                 config_station window_config = Some wanted /\
                 station_for all_stations wanted = Some (Window.station w))
      windows_config windows.
Proof.
  intros Hne Hnew. revert station acc.
  induction windows_config as [|wc rest IH]; intros station acc H.
  - injection H as <-. exists []. by rewrite app_nil_r.
  - simpl in H. next_step H as v_station E_station.
    next_step H as v_bound E_bound. next_step H as v_window E_window.
    apply IH in H as (windows & -> & Hwindows).
    exists (v_window :: windows). rewrite <- app_assoc. split; [done|].
    constructor; [|done].
    destruct (config_station wc) as [wanted|] eqn:Ewanted.
    + exists wanted. split; [done|].
      rewrite (find_station_station_for _ _ wanted) in E_station by done.
      injection E_station as <-.
      rewrite (Hnew _ _ _ E_window).
      by apply read_local_Ok.
    + by rewrite find_station_no_key in E_station.
Qed.

(** X12. With a list of stations that is not empty and a constructor that
    keeps the station it is given, every window that [create_windows]
    returns is bound to the first station of the configured name, and to
    the last station of the list when no station has that name; with an
    empty list of stations the first window raises [UnboundLocalError]. *)
Theorem create_windows_binds_first_or_last windows_config all_stations :
  (all_stations ≠ [] ->
   (forall window_config s w, new window_config s = Ok w -> Window.station w = s) ->
   forall windows,
     create_windows new windows_config all_stations = Ok windows ->
     Forall2 (fun window_config w =>
                exists wanted,
                  config_station window_config = Some wanted /\
                  station_for all_stations wanted = Some (Window.station w))
       windows_config windows) /\
  (all_stations = [] -> windows_config ≠ [] ->
   create_windows new windows_config all_stations = Raise UnboundLocalError).
Proof.
  split.
  - intros Hne Hnew windows H.
    apply create_windows_loop_bound in H as (ws & -> & Hws); done.
  - intros -> Hne. destruct windows_config; done.
Qed.

End windows.

Lemma create_windows_binds_first_or_last_witness :
  Forall2 (fun window_config w =>
             exists wanted,
               config_station window_config = Some wanted /\
               station_for Ex.all_stations wanted = Some (Window.station w))
    Ex2.windows_config [Ex.window_markt; Ex.window_hbf; Ex.window_markt] /\
  create_windows Ex2.new Ex2.windows_config [] = Raise UnboundLocalError.
Proof.
  split.
  - apply (create_windows_binds_first_or_last Ex2.new Ex2.windows_config
             Ex.all_stations).
    + done.
    + intros window_config s w H. vm_compute in H. by injection H as <-.
    + vm_compute. reflexivity.
  - apply (create_windows_binds_first_or_last Ex2.new Ex2.windows_config []);
      done.
Defined.

(** ** download_line_color_list and update_data *)

(** X13. One call of [update_data] empties the icon cache only when the
    table has been downloaded, and keeps it as it is otherwise; it arms
    itself again exactly when it ends without exception, which is when
    [urlretrieve] has raised nothing or an [HTTPError]: any other
    exception of the download ends the refreshing of the table. *)
Theorem update_data_keeps_the_cache_on_failure urlretrieve icon_cache :
  let c := update_data urlretrieve icon_cache in
  (urlretrieve line_colors_url "line-colors.csv" ≠ Retrieved ->
   data_icon_cache c = icon_cache) /\
  (urlretrieve line_colors_url "line-colors.csv" = Retrieved ->
   data_icon_cache c = ∅) /\
  (data_rearmed c = true <-> data_outcome c = Ok ()) /\
  (data_rearmed c = false <->
   exists e, urlretrieve line_colors_url "line-colors.csv" = RaisedOther e).
Proof.
  unfold update_data, download_line_color_list.
  destruct (urlretrieve _ _) as [| |e]; simpl;
    repeat split; try done; try (intros [e' ?]; done); by eauto.
Qed.

Lemma update_data_keeps_the_cache_on_failure_witness :
  data_icon_cache (update_data Ex2.urlretrieve_404 Ex2.icon_cache) = Ex2.icon_cache /\
  data_icon_cache (update_data Ex2.urlretrieve_ok Ex2.icon_cache) = ∅ /\
  data_rearmed (update_data Ex2.urlretrieve_offline Ex2.icon_cache) = false.
Proof.
  split; [|split].
  - apply (update_data_keeps_the_cache_on_failure Ex2.urlretrieve_404). done.
  - apply (update_data_keeps_the_cache_on_failure Ex2.urlretrieve_ok). done.
  - apply (update_data_keeps_the_cache_on_failure Ex2.urlretrieve_offline).
    by eexists.
Defined.

(** ** The check of the colours and the code that reads them *)

Section colours.

Lemma check_colors_loop_Ok colors todo :
  check_colors_loop colors todo = Ok () <->
  Forall (fun key => exists v, colors !! key = Some v /\ is_color_valid v = true) todo.
Proof.
  induction todo as [|key rest IH]; simpl.
  - split; [by constructor|done].
  - rewrite Forall_cons, <- IH. unfold getitem.
    destruct (colors !! key) as [v|]; cbn [mbind pyresult_bind].
    + destruct (is_color_valid v) eqn:Ev.
      * split; [by eauto|]. by intros [_ ?].
      * split; [done|]. intros [(v' & [= <-] & ?) _]. congruence.
    + split; [done|]. by intros [(v' & ? & _) _].
Qed.

(** The check passes exactly when each of the nine colours is there and
    valid. *)
Lemma check_and_get_colors_Passed colors :
  check_and_get_colors (Some colors) = Passed <->
  Forall (fun key => exists v, colors !! key = Some v /\ is_color_valid v = true)
    checked_colors.
Proof.
  rewrite <- check_colors_loop_Ok. unfold check_and_get_colors.
  cbn [getitem_of mbind pyresult_bind].
  destruct (check_colors_loop colors checked_colors) as [[]|[]]; simpl;
    split; done.
Qed.

(** X14. In a configuration whose colours [_check_and_get_colors] has
    accepted, no colour that [update] or the departure cycle asks for is
    missing: [update] of an entry whose icon label is alive returns, and
    the decoding of a response raises only what the XML parser or the
    decoder raise. *)
Theorem checked_colours_serve_update_and_cycle (W : World) (P : Program) :
  check_and_get_colors (Some (colors (prog_config P))) = Passed ->
  (forall e departure i,
     alive e -> (update W (prog_config P) e departure i).2 = Ok ()) /\
  (forall stop_point response,
     exists background text_colour,
       departures_of_response W P stop_point response =
         tree_root ← ET_fromstring W response;
         get_departures_from_xml W (stop_point_ref stop_point) tree_root
           (stations P) (background, text_colour)
           (general_SEV_lines_use_normal_line_icon_colors (prog_config P))).
Proof.
  intros Hcheck%check_and_get_colors_Passed.
  rewrite Forall_forall in Hcheck.
  assert (forall key, key ∈ checked_colors ->
            is_Some (colors (prog_config P) !! key)) as Hsome.
  { intros key Hkey. destruct (Hcheck key Hkey) as (v & -> & _). by eexists. }
  split.
  - intros e departure i He. apply update_alive; [done|].
    split; apply Hsome; unfold checked_colors; set_solver.
  - intros stop_point response.
    destruct (Hsome "default_icon_background") as [bg Hbg];
      [unfold checked_colors; set_solver|].
    destruct (Hsome "default_icon_text") as [tx Htx];
      [unfold checked_colors; set_solver|].
    exists bg, tx. unfold departures_of_response, getitem.
    by rewrite Hbg, Htx.
Qed.

(** *** Three-digit colours and the QR code *)

Lemma drop_all n s : String.length s <= n -> Str.drop n s = EmptyString.
Proof.
  revert s; induction n as [|n IH]; intros [|c s]; simpl; try done; try lia.
  intros. apply IH. lia.
Qed.

Lemma slice_beyond s a b : String.length s <= a -> slice s a b = EmptyString.
Proof. intros H. unfold slice. rewrite drop_all by done. by destruct (b - a). Qed.

Lemma is_hex_digit_not_newline c : is_hex_digit c = true -> Ascii.eqb c "010" = false.
Proof.
  intros H. apply Ascii.eqb_neq. intros ->. vm_compute in H. done.
Qed.

Lemma without_final_newline_hex s :
  all_hex_digits s = true -> without_final_newline s = s.
Proof.
  induction s as [|c s IH]; [done|].
  simpl. intros [Hc Hs]%andb_true_iff.
  destruct s as [|d s]; [by rewrite (is_hex_digit_not_newline c Hc)|].
  by rewrite (IH Hs).
Qed.

(** X15. A colour of three hexadecimal digits passes [is_color_valid], yet
    the colour tuples of the QR code cannot be made of it: a slice reaches
    beyond it, [int] of the empty string raises, and so the computation of
    the tuples raises, whether the colour is the background or the
    foreground. *)
Theorem three_digit_colour_breaks_qr_code (int16 : string -> pyresult Z) digits :
  int16 EmptyString = Raise ValueError ->
  String.length digits = 3 ->
  all_hex_digits digits = true ->
  is_color_valid ("#" +:+ digits) = true /\
  (forall foreground,
     exists e, qr_code_colors int16 ("#" +:+ digits) foreground = Raise e) /\
  (forall background,
     exists e, qr_code_colors int16 background ("#" +:+ digits) = Raise e).
Proof.
  intros Hint Hlen Hhex.
  change ("#" +:+ digits) with (String "#" digits).
  assert (String.length (String "#" digits) = 4) as Hlen4 by (simpl; lia).
  split; [|split].
  - unfold is_color_valid. rewrite without_final_newline_hex by done.
    rewrite Hhex, Hlen. done.
  - intros foreground. unfold qr_code_colors.
    rewrite (slice_beyond _ 5 7) by lia. rewrite Hint.
    destruct (int16 (slice _ 1 3)); cbn [mbind pyresult_bind]; [|by eauto].
    destruct (int16 (slice _ 3 5)); cbn [mbind pyresult_bind]; by eauto.
  - intros background. unfold qr_code_colors.
    rewrite (slice_beyond _ 4 5) by lia. rewrite Hint.
    destruct (int16 (slice background 1 3)); cbn [mbind pyresult_bind]; [|by eauto].
    destruct (int16 (slice background 3 5)); cbn [mbind pyresult_bind]; [|by eauto].
    destruct (int16 (slice background 5 7)); cbn [mbind pyresult_bind]; [|by eauto].
    destruct (int16 (slice _ 1 2)); cbn [mbind pyresult_bind]; [|by eauto].
    destruct (int16 (slice _ 3 4)); cbn [mbind pyresult_bind]; by eauto.
Qed.

End colours.

Lemma checked_colours_serve_update_and_cycle_witness :
  (forall e departure i,
     alive e -> (update Ex.world (prog_config Ex.program) e departure i).2 = Ok ()) /\
  (forall stop_point response,
     exists background text_colour,
       departures_of_response Ex.world Ex.program stop_point response =
         tree_root ← ET_fromstring Ex.world response;
         get_departures_from_xml Ex.world (stop_point_ref stop_point) tree_root
           (stations Ex.program) (background, text_colour)
           (general_SEV_lines_use_normal_line_icon_colors (prog_config Ex.program))).
Proof.
  apply (checked_colours_serve_update_and_cycle Ex.world Ex.program).
  vm_compute. reflexivity.
Defined.

Lemma three_digit_colour_breaks_qr_code_witness :
  is_color_valid ("#" +:+ "0Af") = true /\
  (forall foreground,
     exists e, qr_code_colors Ex2.int16 ("#" +:+ "0Af") foreground = Raise e) /\
  (forall background,
     exists e, qr_code_colors Ex2.int16 background ("#" +:+ "0Af") = Raise e).
Proof.
  apply (three_digit_colour_breaks_qr_code Ex2.int16 "0Af"); reflexivity.
Defined.

(** A colour of six digits gives the two tuples; the foreground is read
    at three single digits. *)
Example qr_code_colors_six_digits :
  qr_code_colors Ex2.int16 "#FFFFFF" "#1A2B3C"
    = Ok ((255, 255, 255, 255)%Z, (1, 2, 11, 255)%Z).
Proof. vm_compute. reflexivity. Qed.

(** ** Window.refresh, further *)

Section refresh_frame.

Context (W : World).

Lemma update_loop_frame cfg n rest i last_i (entries : list Slot) :
  length (update_loop W cfg n rest i last_i entries).1 = length entries /\
  (update_loop W cfg n rest i last_i entries).1 !! 0 = entries !! 0.
Proof.
  revert i last_i entries.
  induction rest as [|d rest IH]; intros i last_i entries; [done|].
  cbn [update_loop].
  destruct (entries !! (i + 1)) as [slot|]; [|done].
  assert (length (<[i + 1 := (on_slot (fun e => update W cfg e d i) slot).1]> entries)
          = length entries) as Hlen by apply length_insert.
  assert (<[i + 1 := (on_slot (fun e => update W cfg e d i) slot).1]> entries !! 0
          = entries !! 0) as Hhead by (apply list_lookup_insert_ne; lia).
  destruct (on_slot _ slot).2; [|done].
  case_bool_decide; [done|].
  destruct (IH (S i) (Some i)
              (<[i + 1 := (on_slot (fun e => update W cfg e d i) slot).1]> entries))
    as [Hl Hh].
  split; congruence.
Qed.

Lemma clear_loop_length cfg i slots :
  length (clear_loop cfg i slots).1 = length slots.
Proof.
  induction slots as [|slot rest IH]; [done|].
  simpl. destruct (on_slot _ slot).2; simpl; by f_equal.
Qed.

(** However [refresh] ends, the window keeps its station, its capacity
    and its configuration, it has as many slots as before, and its header
    slot is as it was. *)
Lemma refresh_frame self departures :
  same_frame self (refreshed_window (refresh W self departures)).
Proof.
  unfold refresh. case_bool_decide; [done|].
  set (looped := update_loop W (Window.config self)
                   (Window.number_of_departure_entries self)
                   (sort_by sort_key departures) 0 None
                   (Window.departure_entries self)).
  destruct (update_loop_frame (Window.config self)
              (Window.number_of_departure_entries self)
              (sort_by sort_key departures) 0 None
              (Window.departure_entries self)) as [Hlen Hhead].
  fold looped in Hlen, Hhead.
  destruct (looped.2 ≫= read_local) as [i|e]; unfold same_frame; simpl.
  - repeat split; try done.
    + rewrite length_app, clear_loop_length, <- length_app, take_drop. done.
    + rewrite <- Hhead. destruct looped.1 as [|slot slots].
      { by rewrite take_nil, drop_nil. }
      replace (i + 2) with (S (S i)) by lia. done.
  - done.
Qed.

End refresh_frame.

Lemma refresh_with_departures_witness :
  refresh Ex.world Ex.window_hbf' [Ex.dep_1005; Ex.dep_1002] =
    mkRefreshed
      (with_entries Ex.window_hbf'
         (Header ::
            (Entry <$>
               updated Ex.world (Window.config Ex.window_hbf') 0
                 (take 2 (replicate 10 (new_entry "#EEEEEE")))
                 (sort_by sort_key [Ex.dep_1005; Ex.dep_1002])
               ++ cleared (Window.config Ex.window_hbf') (2 - 1)
                    (drop 2 (replicate 10 (new_entry "#EEEEEE"))))))
      (sort_by sort_key [Ex.dep_1005; Ex.dep_1002]) (Ok ()).
Proof.
  apply (refresh_with_departures Ex.world Ex.window_hbf'
           (replicate 10 (new_entry "#EEEEEE")) [Ex.dep_1005; Ex.dep_1002]).
  - reflexivity.
  - reflexivity.
  - done.
  - repeat constructor; done.
  - split; vm_compute; by eexists.
  - done.
  - intros _. split; vm_compute; by eexists.
Defined.

(** ** update_departure_entries, further *)

Section cycle_more.

Context (W : World) (P : Program).

Lemma requests_app t1 t2 : requests (t1 ++ t2) = requests t1 ++ requests t2.
Proof. unfold requests. apply bind_app. Qed.

(** *** The first loop *)

(** The requests of the first loop follow the list of stop points, one
    each, up to the one whose request raises. *)
Lemma fetch_loop_requests stop_points all_departures trace :
  exists k,
    requests (fetch_loop W P stop_points all_departures trace).1
      = requests trace ++ take k (stop_point_ref <$> stop_points) /\
    (forall ds, (fetch_loop W P stop_points all_departures trace).2 = Ok ds ->
       k = length stop_points).
Proof.
  revert all_departures trace.
  induction stop_points as [|sp rest IH]; intros all_departures trace.
  - exists 0. simpl. by rewrite app_nil_r.
  - simpl. destruct (kvv_get W (stop_point_ref sp) 10) as [response|e].
    + destruct (departures_of_response W P sp response) as [ds|e].
      * destruct (IH (all_departures ++ ds)
                    (trace ++ [Requested (stop_point_ref sp)])) as (k & Hk & Hall).
        exists (S k). rewrite Hk, requests_app. simpl.
        rewrite <- app_assoc. split; [done|]. intros ds' H. f_equal. by eapply Hall.
      * destruct (IH all_departures
                    ((trace ++ [Requested (stop_point_ref sp)])
                     ++ [Logged "error in creating departures from xml tree" e]))
          as (k & Hk & Hall).
        exists (S k). rewrite Hk, !requests_app. simpl.
        rewrite app_nil_r, <- app_assoc. split; [done|].
        intros ds' H. f_equal. by eapply Hall.
    + exists 1. simpl. rewrite requests_app. simpl. rewrite take_0. done.
Qed.

(** X17. When the request is answered for every stop point in the list,
    the first loop returns, and what it returns is what it had, followed by
    the departures of every response that decodes, in the order of the
    stop points; a response that does not decode adds nothing. *)
Theorem fetch_loop_aggregates stop_points all_departures trace :
  Forall (fun sp => exists response,
            kvv_get W (stop_point_ref sp) 10 = Ok response) stop_points ->
  (fetch_loop W P stop_points all_departures trace).2
    = Ok (all_departures ++ (stop_points ≫= decoded_or_nothing W P)).
Proof.
  intros Hall. revert all_departures trace.
  induction Hall as [|sp rest [response Hsp] Hrest IH]; intros all_departures trace.
  - simpl. by rewrite app_nil_r.
  - cbn [fetch_loop mbind list_bind]. unfold decoded_or_nothing at 1.
    rewrite Hsp.
    destruct (departures_of_response W P sp response) as [ds|e].
    + rewrite IH. by rewrite <- app_assoc.
    + by rewrite IH.
Qed.

(** *** The second loop *)

Lemma window_loop_trace all_departures index todo trace :
  exists refreshed,
    (window_loop W all_departures index todo trace).1.2 = trace ++ refreshed /\
    Forall (fun t => exists k, t = Refreshed_window k) refreshed.
Proof.
  revert index trace. induction todo as [|w rest IH]; intros index trace.
  - exists []. by rewrite app_nil_r.
  - simpl. destruct (refreshed_outcome _).
    + destruct (IH (S index) (trace ++ [Refreshed_window index]))
        as (refreshed & Hr & Hall).
      exists (Refreshed_window index :: refreshed). simpl.
      rewrite Hr, <- app_assoc. split; [done|]. constructor; by eauto.
    + exists []. by rewrite app_nil_r.
Qed.

Lemma window_loop_frame all_departures index todo trace :
  Forall2 same_frame todo (window_loop W all_departures index todo trace).1.1.
Proof.
  revert index trace. induction todo as [|w rest IH]; intros index trace.
  - constructor.
  - simpl. destruct (refreshed_outcome _) eqn:E; simpl.
    + constructor; [apply refresh_frame|apply IH].
    + constructor; [apply refresh_frame|].
      apply Forall_Forall2_diag, Forall_forall. by intros w' _.
Qed.

End cycle_more.

Section cycle_theorems.

Context (W : World) (P : Program).

Lemma requests_refreshed refreshed :
  Forall (fun t => exists k, t = Refreshed_window k) refreshed ->
  requests refreshed = [] /\ forall ms, Rearmed ms ∉ refreshed.
Proof.
  induction 1 as [|t rest [k ->] Hrest [IHr IHn]]; [split; [done|]|].
  - intros ms. apply not_elem_of_nil.
  - split; [done|]. intros ms [?|?]%elem_of_cons; [done|]. by eapply IHn.
Qed.

(** X16. However a cycle ends, every window keeps its station, its
    capacity and its configuration, has as many slots as before, and has
    its header slot as it was; there are as many windows as before, in the
    same order. *)
Theorem cycle_keeps_the_frames :
  Forall2 same_frame (windows P) (cycle_windows (update_departure_entries W P)).
Proof.
  unfold update_departure_entries.
  destruct (fetch_loop W P (all_stop_points P) [] []).2 as [all_departures|e].
  - pose proof (window_loop_frame W all_departures 0 (windows P)
                  (fetch_loop W P (all_stop_points P) [] []).1) as Hframe.
    by destruct (window_loop W all_departures 0 (windows P) _).2.
  - simpl. apply Forall_Forall2_diag, Forall_forall. by intros w _.
Qed.

(** X18. A cycle arms itself again exactly when it ends without
    exception: what leaves the request of a stop point or the refresh of a
    window ends the chain of cycles. *)
Theorem cycle_rearms_iff_it_returns :
  rearmed (update_departure_entries W P) = true
  <-> cycle_outcome (update_departure_entries W P) = Ok ().
Proof.
  unfold update_departure_entries, rearmed.
  pose proof (fetch_loop_never_rearms W P (all_stop_points P) [] [] 30000%Z
                (not_elem_of_nil _)) as Hfetch.
  destruct (fetch_loop W P (all_stop_points P) [] []).2 as [all_departures|e].
  - destruct (window_loop_trace W all_departures 0 (windows P)
                (fetch_loop W P (all_stop_points P) [] []).1)
      as (refreshed & Htrace & Hall).
    destruct (requests_refreshed _ Hall) as [_ Hno].
    destruct (window_loop W all_departures 0 (windows P) _).2 as [[]|e]; simpl.
    + split; [done|]. intros _. apply bool_decide_eq_true_2.
      apply elem_of_app. right. left.
    + split; [|done]. intros Hin%bool_decide_eq_true_1. exfalso.
      rewrite Htrace in Hin. apply elem_of_app in Hin as [Hin|Hin]; [done|].
      by eapply Hno.
  - simpl. split; [|done]. by intros Hin%bool_decide_eq_true_1.
Qed.

(** X19. In one cycle every stop point is asked for at most once, in the
    order of the list of stop points, without gaps; a cycle that returns
    has asked for every one of them. *)
Theorem cycle_requests_follow_the_stop_points :
  (exists k,
     requests (cycle_trace (update_departure_entries W P))
       = take k (stop_point_ref <$> all_stop_points P)) /\
  (cycle_outcome (update_departure_entries W P) = Ok () ->
   requests (cycle_trace (update_departure_entries W P))
     = stop_point_ref <$> all_stop_points P).
Proof.
  unfold update_departure_entries.
  destruct (fetch_loop_requests W P (all_stop_points P) [] [])
    as (k & Hk & Hall). simpl in Hk.
  destruct (fetch_loop W P (all_stop_points P) [] []).2 as [all_departures|e].
  - specialize (Hall all_departures eq_refl). subst k.
    rewrite <- length_fmap with (f := stop_point_ref), firstn_all in Hk.
    destruct (window_loop_trace W all_departures 0 (windows P)
                (fetch_loop W P (all_stop_points P) [] []).1)
      as (refreshed & Htrace & Hrefreshed).
    destruct (requests_refreshed _ Hrefreshed) as [Hnone _].
    assert (requests (window_loop W all_departures 0 (windows P)
                        (fetch_loop W P (all_stop_points P) [] []).1).1.2
            = stop_point_ref <$> all_stop_points P) as Hreq.
    { by rewrite Htrace, requests_app, Hnone, app_nil_r. }
    destruct (window_loop W all_departures 0 (windows P) _).2; simpl.
    + rewrite requests_app, Hreq. simpl. rewrite app_nil_r.
      split; [|done]. exists (length (stop_point_ref <$> all_stop_points P)).
      by rewrite firstn_all.
    + rewrite Hreq. split; [|done].
      exists (length (stop_point_ref <$> all_stop_points P)).
      by rewrite firstn_all.
  - simpl. split; [by exists k|done].
Qed.

End cycle_theorems.

Lemma fetch_loop_aggregates_witness :
  (fetch_loop Ex.world Ex2.program [Ex.sp_A; Ex.sp_B] [] []).2
    = Ok ([] ++ ([Ex.sp_A; Ex.sp_B] ≫= decoded_or_nothing Ex.world Ex2.program)).
Proof.
  apply (fetch_loop_aggregates Ex.world Ex2.program [Ex.sp_A; Ex.sp_B] [] []).
  repeat constructor; by eexists.
Defined.

Lemma cycle_rearms_iff_it_returns_witness :
  rearmed (update_departure_entries Ex.world Ex2.program) = true.
Proof.
  apply (cycle_rearms_iff_it_returns Ex.world Ex2.program).
  vm_compute. reflexivity.
Defined.

Lemma cycle_requests_follow_the_stop_points_witness :
  requests (cycle_trace (update_departure_entries Ex.world Ex2.program))
    = stop_point_ref <$> all_stop_points Ex2.program.
Proof.
  apply (cycle_requests_follow_the_stop_points Ex.world Ex2.program).
  vm_compute. reflexivity.
Defined.

(** A cycle that ends at the third request has asked for three stop
    points, in order. *)
Example cycle_requests_until_failure :
  requests (cycle_trace (update_departure_entries Ex.world Ex.program'))
    = ["de:08212:1"; "de:08212:2"; "de:08212:3"].
Proof. vm_compute. reflexivity. Qed.

Lemma clear_without_colour_witness :
  exists key,
    clear Ex.config (new_entry "#EEEEEE") 1 =
      (mkDepartureEntry (Some EmptyString) EmptyString EmptyString
         (frame_background (new_entry "#EEEEEE"))
         (labels_background (new_entry "#EEEEEE")) Destroyed,
       Raise (KeyError key)).
Proof.
  apply (clear_without_colour Ex.config (new_entry "#EEEEEE") 1);
    vm_compute; reflexivity.
Defined.
